(** * Snapshot-builder metrics server

    A shallow embedding of [docker/snapshot-builder/metrics-server.py]:
    the [SnapshotMetrics] record and its locked methods, the Prometheus
    exposition written by [get_metrics], and the [do_GET] / [do_POST]
    handlers of [MetricsHandler].

    Conventions of the embedding.
    - A Python [str] is a Rocq [string] holding its UTF-8 bytes, a
      [bytes] object is a [string] as well; [encode('utf-8')] is then
      the identity and [decode('utf-8')] is a validity test.
    - Python values that travel through the JSON body are [Py.value];
      [int] is [Z], [float] is a binary64 [float].
    - Calls into the standard library whose result the program only
      passes on ([json.loads], [json.dumps], [int()], [repr()] of
      floats and strings, [str.format]) are the fields of [Runtime].
    - Every method body runs under [with self.lock]; a method is
      therefore one atomic step on the record and concurrent callers
      are modelled by their interleaving ([operation], [perform_all]).

    The main finding.  Line 68 of the source starts the replacement
    field of the status gauge with two opening braces.  In an f-string
    that is the escape for one literal brace, so no field is open when
    the closing brace of the dict display arrives and CPython refuses
    the literal: [SyntaxError: f-string: single '}' is not allowed].
    The error is reported when the module is compiled; the embedding
    reports it where the template is used, in [get_metrics].  The
    other functions are embedded from their own text.  With a blank
    between the two braces the template renders the exposition of the
    specification (lemma [get_metrics_over_spaced]).  *)

From Stdlib Require Import ZArith List String Ascii Bool Lia DecimalString.
From Stdlib Require Import Floats.PrimFloat.
Import ListNotations.

Local Open Scope list_scope.
Local Open Scope string_scope.

(** ** Characters that cannot be written inside a string literal *)

(** The double quote, code point 34. *)
Definition dq : string := String (ascii_of_nat 34) EmptyString.

(** The line feed, code point 10. *)
Definition nl : string := String (ascii_of_nat 10) EmptyString.

(** [sep.join(parts)]. *)
Fixpoint join (sep : string) (parts : list string) : string :=
  match parts with
  | [] => EmptyString
  | [p] => p
  | p :: rest => p ++ sep ++ join sep rest
  end.

(** ** Python values, exceptions and results *)

Module Py.

#[local] Set Warnings "-register-all".

(** The values [json.loads] can return, which are also the values the
    fields of [SnapshotMetrics] can hold.  A [dict] keeps its items in
    insertion order, as Python does. *)
Inductive value : Type :=
| VNone
| VBool (b : bool)
| VInt (n : Z)
| VFloat (x : float)
| VStr (s : string)
| VList (items : list value)
| VDict (items : list (string * value)).

(** An exception object: its class name and [str(e)]. *)
Record exn : Type := Exn { exn_type : string; exn_str : string }.

(** The outcome of evaluating an expression or running a statement. *)
Inductive result (A : Type) : Type :=
| Return (a : A)
| Raise (e : exn).

Arguments Return {A} a.
Arguments Raise {A} e.

Definition bind {A B : Type} (r : result A) (k : A -> result B) : result B :=
  match r with
  | Return a => k a
  | Raise e => Raise e
  end.

(** [bool(v)]: the truth value tested by [if v:]. *)
Definition truthy (v : value) : bool :=
  match v with
  | VNone => false
  | VBool b => b
  | VInt n => negb (Z.eqb n 0)
  | VFloat x => negb (PrimFloat.eqb x PrimFloat.zero)
  | VStr s => negb (String.eqb s EmptyString)
  | VList items => match items with [] => false | _ :: _ => true end
  | VDict items => match items with [] => false | _ :: _ => true end
  end.

(** [v is not None]. *)
Definition is_not_none (v : value) : bool :=
  match v with
  | VNone => false
  | _ => true
  end.

(** [type(v).__name__]. *)
Definition type_name (v : value) : string :=
  match v with
  | VNone => "NoneType"
  | VBool _ => "bool"
  | VInt _ => "int"
  | VFloat _ => "float"
  | VStr _ => "str"
  | VList _ => "list"
  | VDict _ => "dict"
  end.

(** Whether [hash(v)] succeeds: lists and dicts are unhashable. *)
Definition hashable (v : value) : bool :=
  match v with
  | VList _ | VDict _ => false
  | _ => true
  end.

(** Lookup of a string key among the items of a dict. *)
Fixpoint lookup (key : string) (items : list (string * value)) : option value :=
  match items with
  | [] => None
  | (k, v) :: rest => if String.eqb k key then Some v else lookup key rest
  end.

(** [data.get(key, default)].  Only a dict has the attribute [get]. *)
Definition get (data : value) (key : string) (default : value) : result value :=
  match data with
  | VDict items =>
      Return (match lookup key items with Some v => v | None => default end)
  | _ =>
      Raise (Exn "AttributeError"
               ("'" ++ type_name data ++ "' object has no attribute 'get'"))
  end.

(** [data[key]] for a string key. *)
Definition getitem (data : value) (key : string) : result value :=
  match data with
  | VDict items =>
      match lookup key items with
      | Some v => Return v
      | None => Raise (Exn "KeyError" ("'" ++ key ++ "'"))
      end
  | VList _ => Raise (Exn "TypeError" "list indices must be integers or slices, not str")
  | VStr _ => Raise (Exn "TypeError" "string indices must be integers, not 'str'")
  | _ =>
      Raise (Exn "TypeError" ("'" ++ type_name data ++ "' object is not subscriptable"))
  end.

(** [table.get(key, default)] for a dict with string keys and a key of
    any type: the key is hashed first, which fails for a list or a dict;
    a hashable key that is not a string equals none of the dict's keys. *)
Definition get_key (table : list (string * value)) (key default : value)
  : result value :=
  if hashable key then
    Return (match key with
            | VStr k => match lookup k table with Some v => v | None => default end
            | _ => default
            end)
  else Raise (Exn "TypeError" ("unhashable type: '" ++ type_name key ++ "'")).

(** [str(n)] for an [int]. *)
Definition str_of_int (n : Z) : string := NilZero.string_of_int (Z.to_int n).

End Py.

Import Py.

Declare Scope py_scope.
Delimit Scope py_scope with py.
Notation "x <- r ;; k" := (Py.bind r (fun x => k))
  (at level 100, r at next level, right associativity) : py_scope.

(** ** The standard library the program calls

    These functions are CPython's, not the repository's.  The program
    hands their results on unchanged, so the development is parametric
    in them. *)

Class Runtime : Type := {
  (** [b.decode('utf-8')]: [UnicodeDecodeError] on invalid bytes. *)
  utf8_decode : string -> result string;
  (** [json.loads(s)]: [JSONDecodeError] on text that is not JSON. *)
  json_loads : string -> result value;
  (** [json.dumps(obj, indent=indent)] of a JSON-shaped value. *)
  json_dumps : option Z -> value -> string;
  (** [int(s)] of a string: [ValueError] on a malformed literal. *)
  int_of_str : string -> result Z;
  (** [repr(x)] of a float. *)
  float_repr : float -> string;
  (** [repr(s)] of a string. *)
  str_repr : string -> string;
  (** [ascii(v)] computed from [repr(v)]. *)
  ascii_escape : string -> string;
  (** [format(v, spec)] for a non-empty format specification. *)
  format_spec : value -> string -> result string;
  (** [template.format(k1=v1, ...)] with the keyword arguments given. *)
  str_format : string -> list (string * value) -> result string
}.

Section Conversions.

Context {rt : Runtime}.

(** [repr(v)]. *)
Fixpoint repr (v : value) : string :=
  match v with
  | VNone => "None"
  | VBool true => "True"
  | VBool false => "False"
  | VInt n => str_of_int n
  | VFloat x => float_repr x
  | VStr s => str_repr s
  | VList items => "[" ++ join ", " (map repr items) ++ "]"
  | VDict items =>
      "{" ++ join ", "
               (map (fun kv => match kv with
                               | (k, x) => str_repr k ++ ": " ++ repr x
                               end) items) ++ "}"
  end.

(** [str(v)]: a string is itself, anything else is its [repr]. *)
Definition str (v : value) : string :=
  match v with
  | VStr s => s
  | _ => repr v
  end.

(** The value of a replacement field [{expr!conv:spec}] once [expr] has
    been evaluated to [v]: the conversion applies first, then
    [format(_, spec)], which for an empty [spec] is [str]. *)
Definition format_value (v : value) (conv : option ascii) (spec : string)
  : result string :=
  let converted :=
    match conv with
    | None => v
    | Some c =>
        if Ascii.eqb c "r" then VStr (repr v)
        else if Ascii.eqb c "a" then VStr (ascii_escape (repr v))
        else VStr (str v)
    end in
  if String.eqb spec EmptyString then Return (str converted)
  else format_spec converted spec.

End Conversions.

(** ** Formatted string literals

    [get_metrics] builds its text with two f-strings.  An f-string is
    split by the compiler into literal text and replacement fields
    (PEP 498): in literal text a doubled brace stands for one brace, a
    single opening brace starts a replacement field and a single closing
    brace is an error; inside a field the expression runs to the first
    closing brace, exclamation mark or colon that is outside every
    bracket and string.  The templates below contain no backslash, so
    escape sequences play no part; the [=] specifier is not
    distinguished and a format specification is kept as written. *)

Module FString.

Inductive segment : Type :=
| Lit (text : string)
| Field (expr : string) (conv : option ascii) (spec : string).

Inductive mode : Type :=
| MText
| MOpen
| MClose
| MExpr (stack : list ascii) (quote : option ascii)
| MBang
| MConv
| MSpec (depth : nat).

(** The scanner's state: the segments completed so far, latest first,
    and the pieces of the segment being read. *)
Record scanner : Type := Scanner {
  sc_mode : mode;
  sc_done : list segment;
  sc_lit : string;
  sc_expr : string;
  sc_conv : option ascii;
  sc_spec : string
}.

Definition start : scanner :=
  Scanner MText [] EmptyString EmptyString None EmptyString.

Definition snoc (s : string) (c : ascii) : string := s ++ String c EmptyString.

Definition syntax_error {A : Type} (msg : string) : result A :=
  Raise (Exn "SyntaxError" msg).

(** Leading and trailing blanks of an expression carry no meaning. *)
Fixpoint lstrip (s : string) : string :=
  match s with
  | String " " rest => lstrip rest
  | _ => s
  end.

Fixpoint rev_string (s acc : string) : string :=
  match s with
  | EmptyString => acc
  | String c rest => rev_string rest (String c acc)
  end.

Definition strip (s : string) : string :=
  rev_string (lstrip (rev_string (lstrip s) EmptyString)) EmptyString.

(** Literal text read so far becomes a segment when a field starts or
    the literal ends. *)
Definition flush (sc : scanner) : list segment :=
  if String.eqb (sc_lit sc) EmptyString then sc_done sc
  else Lit (sc_lit sc) :: sc_done sc.

(** The closing brace of a replacement field. *)
Definition close_field (sc : scanner) : result scanner :=
  if String.eqb (strip (sc_expr sc)) EmptyString
  then syntax_error "f-string: empty expression not allowed"
  else Return (Scanner MText
                 (Field (sc_expr sc) (sc_conv sc) (sc_spec sc) :: sc_done sc)
                 EmptyString EmptyString None EmptyString).

Definition opener_of (c : ascii) : option ascii :=
  if Ascii.eqb c ")" then Some "("%char
  else if Ascii.eqb c "]" then Some "["%char
  else if Ascii.eqb c "}" then Some "{"%char
  else None.

Definition is_opener (c : ascii) : bool :=
  Ascii.eqb c "(" || Ascii.eqb c "[" || Ascii.eqb c "{".

Definition is_quote (c : ascii) : bool :=
  Ascii.eqb c "'" || Ascii.eqb c (ascii_of_nat 34).

Definition with_mode (m : mode) (sc : scanner) : scanner :=
  Scanner m (sc_done sc) (sc_lit sc) (sc_expr sc) (sc_conv sc) (sc_spec sc).

Definition push_lit (c : ascii) (sc : scanner) : scanner :=
  Scanner MText (sc_done sc) (snoc (sc_lit sc) c) (sc_expr sc) (sc_conv sc)
    (sc_spec sc).

Definition push_expr (m : mode) (c : ascii) (sc : scanner) : scanner :=
  Scanner m (sc_done sc) (sc_lit sc) (snoc (sc_expr sc) c) (sc_conv sc)
    (sc_spec sc).

Definition push_spec (m : mode) (c : ascii) (sc : scanner) : scanner :=
  Scanner m (sc_done sc) (sc_lit sc) (sc_expr sc) (sc_conv sc)
    (snoc (sc_spec sc) c).

(** One character inside the expression of a replacement field. *)
Definition step_expr (stack : list ascii) (quote : option ascii)
  (c : ascii) (sc : scanner) : result scanner :=
  if Ascii.eqb c "\"
  then syntax_error "f-string expression part cannot include a backslash"
  else
    match quote with
    | Some q =>
        Return (push_expr (MExpr stack (if Ascii.eqb c q then None else quote)) c sc)
    | None =>
        if is_quote c then Return (push_expr (MExpr stack (Some c)) c sc)
        else if is_opener c then Return (push_expr (MExpr (c :: stack) None) c sc)
        else if Ascii.eqb c "#"
        then syntax_error "f-string expression part cannot include '#'"
        else
          match opener_of c, stack with
          | Some _, [] =>
              if Ascii.eqb c "}" then close_field sc
              else syntax_error ("f-string: unmatched '" ++ String c "'")
          | Some o, top :: below =>
              if Ascii.eqb o top then Return (push_expr (MExpr below None) c sc)
              else syntax_error
                     ("f-string: closing parenthesis '" ++ String c
                        "' does not match opening parenthesis '" ++ String top "'")
          | None, [] =>
              if Ascii.eqb c "!" then Return (with_mode MBang sc)
              else if Ascii.eqb c ":" then Return (with_mode (MSpec 0) sc)
              else Return (push_expr (MExpr [] None) c sc)
          | None, _ :: _ => Return (push_expr (MExpr stack None) c sc)
          end
    end.

(** One character of the literal. *)
Definition step (sc : scanner) (c : ascii) : result scanner :=
  match sc_mode sc with
  | MText =>
      if Ascii.eqb c "{" then Return (with_mode MOpen sc)
      else if Ascii.eqb c "}" then Return (with_mode MClose sc)
      else Return (push_lit c sc)
  | MOpen =>
      if Ascii.eqb c "{" then Return (push_lit c sc)
      else step_expr [] None c
             (Scanner (MExpr [] None) (flush sc) EmptyString EmptyString None
                EmptyString)
  | MClose =>
      if Ascii.eqb c "}" then Return (push_lit c sc)
      else syntax_error "f-string: single '}' is not allowed"
  | MExpr stack quote => step_expr stack quote c sc
  | MBang =>
      if Ascii.eqb c "=" then
        Return (push_expr (MExpr [] None) c (push_expr MBang "!" sc))
      else if Ascii.eqb c "s" || Ascii.eqb c "r" || Ascii.eqb c "a" then
        Return (Scanner MConv (sc_done sc) (sc_lit sc) (sc_expr sc) (Some c)
                  (sc_spec sc))
      else syntax_error
             "f-string: invalid conversion character: expected 's', 'r', or 'a'"
  | MConv =>
      if Ascii.eqb c "}" then close_field sc
      else if Ascii.eqb c ":" then Return (with_mode (MSpec 0) sc)
      else syntax_error "f-string: expecting '}'"
  | MSpec depth =>
      if Ascii.eqb c "{" then Return (push_spec (MSpec (S depth)) c sc)
      else if Ascii.eqb c "}" then
        match depth with
        | O => close_field sc
        | S d => Return (push_spec (MSpec d) c sc)
        end
      else Return (push_spec (MSpec depth) c sc)
  end.

(** The end of the literal. *)
Definition finish (sc : scanner) : result (list segment) :=
  match sc_mode sc with
  | MText => Return (rev (flush sc))
  | MClose => syntax_error "f-string: single '}' is not allowed"
  | MExpr _ (Some _) => syntax_error "f-string: unterminated string"
  | _ => syntax_error "f-string: expecting '}'"
  end.

Fixpoint run (template : string) (sc : scanner) : result (list segment) :=
  match template with
  | EmptyString => finish sc
  | String c rest =>
      match step sc c with
      | Return sc' => run rest sc'
      | Raise e => Raise e
      end
  end.

(** What the compiler makes of the body of an f-string. *)
Definition scan (template : string) : result (list segment) := run template start.

Section Render.

Context {rt : Runtime}.

(** The value of an f-string: its fields are evaluated and formatted
    from left to right, the first exception ends the evaluation. *)
Fixpoint render (scope : string -> result value) (segs : list segment)
  : result string :=
  match segs with
  | [] => Return EmptyString
  | Lit text :: rest =>
      (tail <- render scope rest ;; Return (text ++ tail))%py
  | Field expr conv spec :: rest =>
      (v <- scope (strip expr) ;;
       text <- format_value v conv spec ;;
       tail <- render scope rest ;;
       Return (text ++ tail))%py
  end.

End Render.

End FString.

(** ** The shared record: class [SnapshotMetrics] *)

(** [start_time] and the two counters are only ever written by
    [__init__] and by [+= 1]; the other fields receive whatever value a
    caller passes, so they hold a [value]. *)
Record SnapshotMetrics : Type := {
  start_time : float;
  status : value;
  current_operation : value;
  progress_percent : value;
  bytes_processed : value;
  snapshots_created : Z;
  snapshots_cleaned : Z;
  last_error : value
}.

(** [SnapshotMetrics()] when [time.time()] returns [now]. *)
Definition init (now : float) : SnapshotMetrics := {|
  start_time := now;
  status := VStr "running";
  current_operation := VStr "initializing";
  progress_percent := VInt 0;
  bytes_processed := VInt 0;
  snapshots_created := 0;
  snapshots_cleaned := 0;
  last_error := VStr EmptyString
|}.

Definition set_status (v : value) (self : SnapshotMetrics) : SnapshotMetrics := {|
  start_time := start_time self;
  status := v;
  current_operation := current_operation self;
  progress_percent := progress_percent self;
  bytes_processed := bytes_processed self;
  snapshots_created := snapshots_created self;
  snapshots_cleaned := snapshots_cleaned self;
  last_error := last_error self
|}.

Definition set_current_operation (v : value) (self : SnapshotMetrics)
  : SnapshotMetrics := {|
  start_time := start_time self;
  status := status self;
  current_operation := v;
  progress_percent := progress_percent self;
  bytes_processed := bytes_processed self;
  snapshots_created := snapshots_created self;
  snapshots_cleaned := snapshots_cleaned self;
  last_error := last_error self
|}.

Definition set_progress_percent (v : value) (self : SnapshotMetrics)
  : SnapshotMetrics := {|
  start_time := start_time self;
  status := status self;
  current_operation := current_operation self;
  progress_percent := v;
  bytes_processed := bytes_processed self;
  snapshots_created := snapshots_created self;
  snapshots_cleaned := snapshots_cleaned self;
  last_error := last_error self
|}.

Definition set_bytes_processed (v : value) (self : SnapshotMetrics)
  : SnapshotMetrics := {|
  start_time := start_time self;
  status := status self;
  current_operation := current_operation self;
  progress_percent := progress_percent self;
  bytes_processed := v;
  snapshots_created := snapshots_created self;
  snapshots_cleaned := snapshots_cleaned self;
  last_error := last_error self
|}.

(** [update_status(status, operation="", progress=None,
    bytes_processed=None)].  An argument the caller leaves out is
    [None]; [status] has no default, so leaving it out is a [TypeError]
    raised by the call itself, before the body runs. *)
Definition update_status (status operation progress bytes_processed : option value)
  (self : SnapshotMetrics) : result SnapshotMetrics :=
  match status with
  | None =>
      Raise (Exn "TypeError"
               "SnapshotMetrics.update_status() missing 1 required positional argument: 'status'")
  | Some status =>
      let operation := match operation with Some v => v | None => VStr EmptyString end in
      let progress := match progress with Some v => v | None => VNone end in
      let bytes_processed :=
        match bytes_processed with Some v => v | None => VNone end in
      let self := set_status status self in
      let self := if truthy operation then set_current_operation operation self
                  else self in
      let self := if is_not_none progress then set_progress_percent progress self
                  else self in
      let self := if is_not_none bytes_processed
                  then set_bytes_processed bytes_processed self
                  else self in
      Return self
  end.

(** [increment_snapshots_created()]. *)
Definition increment_snapshots_created (self : SnapshotMetrics) : SnapshotMetrics := {|
  start_time := start_time self;
  status := status self;
  current_operation := current_operation self;
  progress_percent := progress_percent self;
  bytes_processed := bytes_processed self;
  snapshots_created := snapshots_created self + 1;
  snapshots_cleaned := snapshots_cleaned self;
  last_error := last_error self
|}.

(** [increment_snapshots_cleaned()]. *)
Definition increment_snapshots_cleaned (self : SnapshotMetrics) : SnapshotMetrics := {|
  start_time := start_time self;
  status := status self;
  current_operation := current_operation self;
  progress_percent := progress_percent self;
  bytes_processed := bytes_processed self;
  snapshots_created := snapshots_created self;
  snapshots_cleaned := snapshots_cleaned self + 1;
  last_error := last_error self
|}.

(** [set_error(error)]. *)
Definition set_error (error : value) (self : SnapshotMetrics) : SnapshotMetrics := {|
  start_time := start_time self;
  status := status self;
  current_operation := current_operation self;
  progress_percent := progress_percent self;
  bytes_processed := bytes_processed self;
  snapshots_created := snapshots_created self;
  snapshots_cleaned := snapshots_cleaned self;
  last_error := error
|}.

(** ** The exposition: [get_metrics] *)

(** The process environment, [os.environ]. *)
Definition environment : Type := list (string * string).

(** [os.environ.get(name, default)]. *)
Fixpoint environ_get (environ : environment) (name default : string) : string :=
  match environ with
  | [] => default
  | (k, v) :: rest => if String.eqb k name then v else environ_get rest name default
  end.

(** The dict display of line 68 and the lookup applied to it. *)
Definition status_table : list (string * value) :=
  [("running", VInt 1); ("stopped", VInt 0); ("error", VInt 2)].

(** The source text of that expression:
    [{"running": 1, "stopped": 0, "error": 2}.get(self.status, 0)]. *)
Definition status_expr : string :=
  "{" ++ dq ++ "running" ++ dq ++ ": 1, " ++ dq ++ "stopped" ++ dq ++ ": 0, "
      ++ dq ++ "error" ++ dq ++ ": 2}.get(self.status, 0)".

(** Line 68 as it stands in the source: the expression between one
    opening and one closing brace, with nothing in between. *)
Definition status_line : string :=
  "snapshot_builder_status {" ++ status_expr ++ "}".

(** The body of the first f-string, lines 58 to 89, around a given text
    for line 68. *)
Definition metrics_lines (line_68 : string) : list string := [
  "# HELP snapshot_builder_info Information about the snapshot builder";
  "# TYPE snapshot_builder_info gauge";
  "snapshot_builder_info{{pod=" ++ dq ++ "{pod_name}" ++ dq
    ++ ",namespace=" ++ dq ++ "{namespace}" ++ dq
    ++ ",network=" ++ dq ++ "{network}" ++ dq ++ "}} 1";
  EmptyString;
  "# HELP snapshot_builder_uptime_seconds Uptime of the snapshot builder in seconds";
  "# TYPE snapshot_builder_uptime_seconds counter";
  "snapshot_builder_uptime_seconds {uptime}";
  EmptyString;
  "# HELP snapshot_builder_status Current status of the builder (0=stopped, 1=running, 2=error)";
  "# TYPE snapshot_builder_status gauge";
  line_68;
  EmptyString;
  "# HELP snapshot_builder_progress_percent Current operation progress percentage";
  "# TYPE snapshot_builder_progress_percent gauge";
  "snapshot_builder_progress_percent {self.progress_percent}";
  EmptyString;
  "# HELP snapshot_builder_bytes_processed_total Total bytes processed";
  "# TYPE snapshot_builder_bytes_processed_total counter";
  "snapshot_builder_bytes_processed_total {self.bytes_processed}";
  EmptyString;
  "# HELP snapshot_builder_snapshots_created_total Total snapshots created";
  "# TYPE snapshot_builder_snapshots_created_total counter";
  "snapshot_builder_snapshots_created_total {self.snapshots_created}";
  EmptyString;
  "# HELP snapshot_builder_snapshots_cleaned_total Total snapshots cleaned up";
  "# TYPE snapshot_builder_snapshots_cleaned_total counter";
  "snapshot_builder_snapshots_cleaned_total {self.snapshots_cleaned}";
  EmptyString;
  "# HELP snapshot_builder_last_operation_info Information about the current/last operation";
  "# TYPE snapshot_builder_last_operation_info gauge";
  "snapshot_builder_last_operation_info{{operation=" ++ dq
    ++ "{self.current_operation}" ++ dq ++ "}} 1"
].

Definition template_around (line_68 : string) : string :=
  join nl (metrics_lines line_68) ++ nl.

(** The first f-string of [get_metrics], as written. *)
Definition metrics_template : string := template_around status_line.

(** The body of the second f-string, lines 92 to 96. *)
Definition last_error_lines : list string := [
  EmptyString;
  "# HELP snapshot_builder_last_error_info Information about the last error";
  "# TYPE snapshot_builder_last_error_info gauge";
  "snapshot_builder_last_error_info{{error=" ++ dq ++ "{self.last_error}" ++ dq
    ++ "}} 1"
].

Definition last_error_template : string := join nl last_error_lines ++ nl.

Section Exposition.

Context {rt : Runtime}.

(** The expressions that occur in the replacement fields, each with
    its value in the body of [get_metrics]. *)
Definition field_value (pod_name namespace network : string) (uptime : float)
  (self : SnapshotMetrics) (expr : string) : result value :=
  if String.eqb expr "pod_name" then Return (VStr pod_name)
  else if String.eqb expr "namespace" then Return (VStr namespace)
  else if String.eqb expr "network" then Return (VStr network)
  else if String.eqb expr "uptime" then Return (VFloat uptime)
  else if String.eqb expr status_expr then get_key status_table (status self) (VInt 0)
  else if String.eqb expr "self.progress_percent" then Return (progress_percent self)
  else if String.eqb expr "self.bytes_processed" then Return (bytes_processed self)
  else if String.eqb expr "self.snapshots_created"
  then Return (VInt (snapshots_created self))
  else if String.eqb expr "self.snapshots_cleaned"
  then Return (VInt (snapshots_cleaned self))
  else if String.eqb expr "self.current_operation"
  then Return (current_operation self)
  else if String.eqb expr "self.last_error" then Return (last_error self)
  else Raise (Exn "NameError" ("name '" ++ expr ++ "' is not defined")).

(** The body of [get_metrics] over a given first template.  Both
    f-strings are compiled before anything runs; [now] is what
    [time.time()] returns during the call. *)
Definition get_metrics_over (template : string) (environ : environment)
  (now : float) (self : SnapshotMetrics) : result string :=
  (main <- FString.scan template ;;
   more <- FString.scan last_error_template ;;
   let pod_name := environ_get environ "POD_NAME" "unknown" in
   let namespace := environ_get environ "POD_NAMESPACE" "unknown" in
   let network := environ_get environ "ETHEREUM_NETWORK" "unknown" in
   let uptime := PrimFloat.sub now (start_time self) in
   let scope := field_value pod_name namespace network uptime self in
   metrics <- FString.render scope main ;;
   if truthy (last_error self)
   then (extra <- FString.render scope more ;; Return (metrics ++ extra))
   else Return metrics)%py.

(** [get_metrics()]. *)
Definition get_metrics : environment -> float -> SnapshotMetrics -> result string :=
  get_metrics_over metrics_template.

End Exposition.

(** ** The request handlers: class [MetricsHandler] *)

(** What a handler puts on the connection, in order. *)
Inductive event : Type :=
| SendResponse (code : Z)
| SendHeader (keyword text : string)
| EndHeaders
| Write (data : string).

(** A handler works on the module-level instance [metrics] and on the
    connection.  An exception leaves both as they were when it was
    raised: nothing is rolled back. *)
Record state : Type := State {
  metrics : SnapshotMetrics;
  sent : list event
}.

Definition handler (A : Type) : Type := state -> result A * state.

Definition ret {A : Type} (a : A) : handler A := fun s => (Return a, s).

Definition seq {A B : Type} (h : handler A) (k : A -> handler B) : handler B :=
  fun s =>
    match h s with
    | (Return a, s') => k a s'
    | (Raise e, s') => (Raise e, s')
    end.

(** [try: body except Exception as e: rescue]. *)
Definition try_except {A : Type} (body : handler A) (rescue : exn -> handler A) : handler A :=
  fun s =>
    match body s with
    | (Return a, s') => (Return a, s')
    | (Raise e, s') => rescue e s'
    end.

(** The value of an expression that touches neither the record nor the
    connection. *)
Definition lift {A : Type} (r : result A) : handler A := fun s => (r, s).

(** A read of the shared record. *)
Definition read {A : Type} (f : SnapshotMetrics -> A) : handler A :=
  fun s => (Return (f (metrics s)), s).

(** A call of a method that updates the shared record. *)
Definition call (f : SnapshotMetrics -> SnapshotMetrics) : handler unit :=
  fun s => (Return tt, State (f (metrics s)) (sent s)).

(** A call of a method that may raise before it updates the record. *)
Definition call_raising (f : SnapshotMetrics -> result SnapshotMetrics)
  : handler unit :=
  fun s =>
    match f (metrics s) with
    | Return m => (Return tt, State m (sent s))
    | Raise e => (Raise e, s)
    end.

Definition emit (e : event) : handler unit :=
  fun s => (Return tt, State (metrics s) (sent s ++ [e])%list).

Definition send_response (code : Z) : handler unit := emit (SendResponse code).
Definition send_header (keyword text : string) : handler unit :=
  emit (SendHeader keyword text).
Definition end_headers : handler unit := emit EndHeaders.
Definition wfile_write (data : string) : handler unit := emit (Write data).

(** [if test: body]. *)
Definition when (test : bool) (body : handler unit) : handler unit :=
  if test then body else ret tt.

Declare Scope handler_scope.
Delimit Scope handler_scope with handler.
Notation "x <- h ;; k" := (seq h (fun x => k))
  (at level 100, h at next level, right associativity) : handler_scope.
Notation "h ;; k" := (seq h (fun _ => k))
  (at level 100, right associativity) : handler_scope.

(** What a request sees of the process besides the record: the
    environment, the clock reading of [time.time()] and the text of
    [datetime.utcnow().isoformat()]. *)
Record process : Type := {
  environ : environment;
  time_time : float;
  utcnow_isoformat : string
}.

(** A POST request: its path, its [Content-Length] header if it has
    one, and the bytes that follow the headers on the connection. *)
Record request : Type := {
  path : string;
  content_length : option string;
  rfile : string
}.

(** [rfile.read(n)]: at most [n] bytes, everything for a negative [n]. *)
Definition rfile_read (n : Z) (data : string) : string :=
  if (n <? 0)%Z then data else substring 0 (Z.to_nat n) data.

(** The template of the status page, lines 130 to 153. *)
Definition status_page_template : string :=
  join nl [
    "<!DOCTYPE html>";
    "<html>";
    "<head>";
    "    <title>Snapshot Builder Metrics</title>";
    "    <style>";
    "        body { font-family: Arial, sans-serif; margin: 40px; }";
    "        .metric { margin: 10px 0; }";
    "        .status { font-weight: bold; }";
    "        .running { color: green; }";
    "        .error { color: red; }";
    "        .stopped { color: orange; }";
    "    </style>";
    "</head>";
    "<body>";
    "    <h1>Ethereum Snapshot Builder</h1>";
    "    <div class=" ++ dq ++ "metric" ++ dq ++ ">Status: <span class=" ++ dq
      ++ "status {status}" ++ dq ++ ">{status}</span></div>";
    "    <div class=" ++ dq ++ "metric" ++ dq ++ ">Operation: {operation}</div>";
    "    <div class=" ++ dq ++ "metric" ++ dq ++ ">Progress: {progress}%</div>";
    "    <div class=" ++ dq ++ "metric" ++ dq ++ ">Uptime: {uptime:.1f}s</div>";
    "    <div class=" ++ dq ++ "metric" ++ dq ++ ">Snapshots Created: {created}</div>";
    "    <div class=" ++ dq ++ "metric" ++ dq ++ ">Snapshots Cleaned: {cleaned}</div>";
    "    <p><a href=" ++ dq ++ "/metrics" ++ dq ++ ">Prometheus Metrics</a> | <a href="
      ++ dq ++ "/health" ++ dq ++ ">Health Check</a></p>";
    "</body>";
    "</html>"
  ].

(** The bytes literal of line 188. *)
Definition updated_body : string :=
  "{" ++ dq ++ "status" ++ dq ++ ": " ++ dq ++ "updated" ++ dq ++ "}".

Section Handlers.

Context {rt : Runtime}.

Local Open Scope handler_scope.

(** The dict [health_data] of lines 118 to 124. *)
Definition health_data (p : process) (m : SnapshotMetrics) : value :=
  VDict [
    ("status", status m);
    ("uptime", VFloat (PrimFloat.sub (time_time p) (start_time m)));
    ("current_operation", current_operation m);
    ("progress", progress_percent m);
    ("timestamp", VStr (utcnow_isoformat p ++ "Z"))
  ].

(** The keyword arguments of [format] at lines 154 to 159. *)
Definition status_page_arguments (p : process) (m : SnapshotMetrics)
  : list (string * value) :=
  [ ("status", status m);
    ("operation", current_operation m);
    ("progress", progress_percent m);
    ("uptime", VFloat (PrimFloat.sub (time_time p) (start_time m)));
    ("created", VInt (snapshots_created m));
    ("cleaned", VInt (snapshots_cleaned m)) ].

(** [do_GET]. *)
Definition do_GET (p : process) (path : string) : handler unit :=
  if String.eqb path "/metrics" then
    send_response 200 ;;
    send_header "Content-type" "text/plain; charset=utf-8" ;;
    end_headers ;;
    m <- read (fun m => m) ;;
    text <- lift (get_metrics (environ p) (time_time p) m) ;;
    wfile_write text
  else if String.eqb path "/health" then
    send_response 200 ;;
    send_header "Content-type" "application/json" ;;
    end_headers ;;
    m <- read (fun m => m) ;;
    wfile_write (json_dumps (Some 2%Z) (health_data p m))
  else if String.eqb path "/" then
    send_response 200 ;;
    send_header "Content-type" "text/html" ;;
    end_headers ;;
    m <- read (fun m => m) ;;
    html <- lift (str_format status_page_template (status_page_arguments p m)) ;;
    wfile_write html
  else
    send_response 404 ;;
    end_headers.

(** [json.loads(post_data.decode('utf-8'))]. *)
Definition parse_body (post_data : string) : result value :=
  (text <- utf8_decode post_data ;; json_loads text)%py.

(** Lines 172 to 183: the update applied to the record. *)
Definition apply_update (data : value) : handler unit :=
  current <- read status ;;
  new_status <- lift (Py.get data "status" current) ;;
  operation <- lift (Py.get data "operation" (VStr EmptyString)) ;;
  progress <- lift (Py.get data "progress" VNone) ;;
  bytes <- lift (Py.get data "bytes_processed" VNone) ;;
  call_raising
    (update_status (Some new_status) (Some operation) (Some progress) (Some bytes)) ;;
  created <- lift (Py.get data "snapshots_created" VNone) ;;
  when (truthy created) (call increment_snapshots_created) ;;
  cleaned <- lift (Py.get data "snapshots_cleaned" VNone) ;;
  when (truthy cleaned) (call increment_snapshots_cleaned) ;;
  error <- lift (Py.get data "error" VNone) ;;
  when (truthy error)
    (message <- lift (Py.getitem data "error") ;; call (set_error message)).

(** The [except] clause of lines 189 to 194. *)
Definition reply_error (e : exn) : handler unit :=
  send_response 400 ;;
  send_header "Content-type" "application/json" ;;
  end_headers ;;
  wfile_write (json_dumps None (VDict [("error", VStr (exn_str e))])).

(** The integer given to [rfile.read] at line 168. *)
Definition body_length (req : request) : result Z :=
  match content_length req with
  | Some header => int_of_str header
  | None => Return 0%Z
  end.

(** [do_POST]. *)
Definition do_POST (req : request) : handler unit :=
  if String.eqb (path req) "/update" then
    n <- lift (body_length req) ;;
    let post_data := rfile_read n (rfile req) in
    try_except
      (data <- lift (parse_body post_data) ;;
       apply_update data ;;
       send_response 200 ;;
       send_header "Content-type" "application/json" ;;
       end_headers ;;
       wfile_write updated_body)
      reply_error
  else
    send_response 404 ;;
    end_headers.

(** The handler of the interrupt in [main], line 218. *)
Definition on_interrupt : SnapshotMetrics -> result SnapshotMetrics :=
  update_status (Some (VStr "stopped")) (Some (VStr "shutdown")) None None.

End Handlers.

(** ** Callers of the shared record

    The five methods take the lock for their whole body, so whatever
    the threads do, the record goes through a sequence of whole method
    calls: an interleaving of the callers' requests. *)

Inductive operation : Type :=
| UpdateStatus (status operation progress bytes_processed : option value)
| IncrementSnapshotsCreated
| IncrementSnapshotsCleaned
| SetError (error : value)
| GetMetrics (environ : environment) (now : float).

(** One method call on the record.  A call that raises leaves the
    record as it found it; [get_metrics] only reads. *)
Definition perform (op : operation) (self : SnapshotMetrics) : SnapshotMetrics :=
  match op with
  | UpdateStatus status operation progress bytes_processed =>
      match update_status status operation progress bytes_processed self with
      | Return self' => self'
      | Raise _ => self
      end
  | IncrementSnapshotsCreated => increment_snapshots_created self
  | IncrementSnapshotsCleaned => increment_snapshots_cleaned self
  | SetError error => set_error error self
  | GetMetrics _ _ => self
  end.

Fixpoint perform_all (ops : list operation) (self : SnapshotMetrics)
  : SnapshotMetrics :=
  match ops with
  | [] => self
  | op :: rest => perform_all rest (perform op self)
  end.

(** How many calls of a trace are [increment_snapshots_created],
    respectively [increment_snapshots_cleaned]. *)
Fixpoint created_calls (ops : list operation) : Z :=
  match ops with
  | [] => 0
  | IncrementSnapshotsCreated :: rest => 1 + created_calls rest
  | _ :: rest => created_calls rest
  end.

Fixpoint cleaned_calls (ops : list operation) : Z :=
  match ops with
  | [] => 0
  | IncrementSnapshotsCleaned :: rest => 1 + cleaned_calls rest
  | _ :: rest => cleaned_calls rest
  end.

(** ** Reading a response *)

(** The status code of the response a handler sent, if it sent one. *)
Fixpoint status_code (events : list event) : option Z :=
  match events with
  | [] => None
  | SendResponse code :: _ => Some code
  | _ :: rest => status_code rest
  end.

(** The body bytes written after the headers. *)
Fixpoint body_written (events : list event) : string :=
  match events with
  | [] => EmptyString
  | Write data :: rest => data ++ body_written rest
  | _ :: rest => body_written rest
  end.

(** A fresh connection over a given record. *)
Definition connection (m : SnapshotMetrics) : state := State m [].

(** ** A stand-in for the standard library

    Enough of CPython's answers to run the examples: the request bodies
    listed below are parsed as [json.loads] parses them, every other
    text is answered as [json.loads] answers text that does not start a
    JSON value; text is written out without escaping and no format
    specification is understood. *)

Module Sample.


(** [{"progress": 42}] *)
Definition body_progress_42 : string :=
  "{" ++ dq ++ "progress" ++ dq ++ ": 42}".

(** [{"snapshots_created": 0}] *)
Definition body_created_0 : string :=
  "{" ++ dq ++ "snapshots_created" ++ dq ++ ": 0}".

(** [{"status": ""}] *)
Definition body_status_empty : string :=
  "{" ++ dq ++ "status" ++ dq ++ ": " ++ dq ++ dq ++ "}".

(** [[1]] *)
Definition body_list : string := "[1]".

(** [{}] *)
Definition body_empty_object : string := "{}".

Definition loads (text : string) : result value :=
  if String.eqb text body_progress_42 then Return (VDict [("progress", VInt 42)])
  else if String.eqb text body_created_0
  then Return (VDict [("snapshots_created", VInt 0)])
  else if String.eqb text body_status_empty
  then Return (VDict [("status", VStr EmptyString)])
  else if String.eqb text body_list then Return (VList [VInt 1])
  else if String.eqb text body_empty_object then Return (VDict [])
  else Raise (Exn "JSONDecodeError" "Expecting value: line 1 column 1 (char 0)").

Definition quoted (s : string) : string := dq ++ s ++ dq.

Fixpoint dumps (v : value) : string :=
  match v with
  | VNone => "null"
  | VBool true => "true"
  | VBool false => "false"
  | VInt n => str_of_int n
  | VFloat _ => "0.0"
  | VStr s => quoted s
  | VList items => "[" ++ join ", " (map dumps items) ++ "]"
  | VDict items =>
      "{" ++ join ", "
               (map (fun kv => match kv with
                               | (k, x) => quoted k ++ ": " ++ dumps x
                               end) items) ++ "}"
  end.

Definition parse_int (s : string) : result Z :=
  match NilZero.int_of_string s with
  | Some n => Return (Z.of_int n)
  | None =>
      Raise (Exn "ValueError" ("invalid literal for int() with base 10: '" ++ s ++ "'"))
  end.

Definition runtime : Runtime := {|
  utf8_decode := fun data => Return data;
  json_loads := loads;
  json_dumps := fun _ v => dumps v;
  int_of_str := parse_int;
  float_repr := fun _ => "0.0";
  str_repr := fun s => "'" ++ s ++ "'";
  ascii_escape := fun s => s;
  format_spec := fun _ spec =>
    Raise (Exn "ValueError" ("Invalid format specifier '" ++ spec ++ "'"));
  str_format := fun _ _ => Raise (Exn "KeyError" "' font-family'")
|}.

(** A request to [/update] carrying [body] with its length announced. *)
Definition post (body : string) : request := {|
  path := "/update";
  content_length := Some (str_of_int (Z.of_nat (String.length body)));
  rfile := body
|}.

Definition at_start : SnapshotMetrics := init PrimFloat.zero.

Definition at_noon : process := {|
  environ := [("POD_NAME", "builder-0"); ("ETHEREUM_NETWORK", "mainnet")];
  time_time := PrimFloat.one;
  utcnow_isoformat := "2024-01-01T12:00:00"
|}.

End Sample.

(** ** What a call of [update_status] leaves in a field *)

(** What [update_status] leaves in a field guarded by [if operation:]. *)
Definition kept_unless_truthy (given : option value) (current : value) : value :=
  match given with
  | Some v => if truthy v then v else current
  | None => current
  end.

(** What it leaves in a field guarded by [is not None]. *)
Definition kept_unless_given (given : option value) (current : value) : value :=
  match given with
  | Some v => if is_not_none v then v else current
  | None => current
  end.

(** The exception CPython raises for a lone closing brace. *)
Definition single_brace : exn :=
  Exn "SyntaxError" "f-string: single '}' is not allowed".

(** ** What a request body asks for *)

(** [data.get(key)] on the items of a dict: [None] for a missing key. *)
Definition item (items : list (string * value)) (key : string) : value :=
  match lookup key items with
  | Some v => v
  | None => VNone
  end.

(** [data.get(key, default)] on the items of a dict. *)
Definition item_or (items : list (string * value)) (key : string) (default : value)
  : value :=
  match lookup key items with
  | Some v => v
  | None => default
  end.

(** Whether the body parsed, and parsed to a JSON object. *)
Definition is_json_object (parsed : result value) : bool :=
  match parsed with
  | Return (VDict _) => true
  | _ => false
  end.

(** The response of line 185 to 188 and the one of the [except] clause
    for an exception [e], as they appear on a fresh connection. *)
Definition updated_response : list event :=
  [ SendResponse 200;
    SendHeader "Content-type" "application/json";
    EndHeaders;
    Write updated_body ].

Definition error_response `{rt : Runtime} (e : exn) : list event :=
  [ SendResponse 400;
    SendHeader "Content-type" "application/json";
    EndHeaders;
    Write (json_dumps None (VDict [("error", VStr (exn_str e))])) ].

(** The record after lines 172 to 183 have run on a dict with the given
    items: [apply_update] in closed form (lemma [apply_update_dict]). *)
Definition after_update (items : list (string * value)) (m : SnapshotMetrics)
  : SnapshotMetrics :=
  let m1 := {|
    start_time := start_time m;
    status := item_or items "status" (status m);
    current_operation :=
      kept_unless_truthy (Some (item_or items "operation" (VStr EmptyString)))
        (current_operation m);
    progress_percent :=
      kept_unless_given (Some (item items "progress")) (progress_percent m);
    bytes_processed :=
      kept_unless_given (Some (item items "bytes_processed")) (bytes_processed m);
    snapshots_created := snapshots_created m;
    snapshots_cleaned := snapshots_cleaned m;
    last_error := last_error m
  |} in
  let m2 := if truthy (item items "snapshots_created")
            then increment_snapshots_created m1 else m1 in
  let m3 := if truthy (item items "snapshots_cleaned")
            then increment_snapshots_cleaned m2 else m2 in
  if truthy (item items "error") then set_error (item items "error") m3 else m3.

(** ** Reading the template *)

(** What is left of [s] after a given prefix, if it starts with it. *)
Fixpoint after_prefix (prefix s : string) : option string :=
  match prefix, s with
  | EmptyString, _ => Some s
  | String a prefix', String b s' =>
      if Ascii.eqb a b then after_prefix prefix' s' else None
  | String _ _, EmptyString => None
  end.

(** The text up to the first blank. *)
Fixpoint first_word (s : string) : string :=
  match s with
  | EmptyString => EmptyString
  | String c rest => if Ascii.eqb c " " then EmptyString else String c (first_word rest)
  end.

(** The metrics that the lines of a template announce with [# HELP]. *)
Definition announced (lines : list string) : list string :=
  flat_map (fun line => match after_prefix "# HELP " line with
                        | Some rest => [first_word rest]
                        | None => []
                        end) lines.

(** The response headers of [/metrics] and of [/health]. *)
Definition metrics_headers : list event :=
  [ SendResponse 200;
    SendHeader "Content-type" "text/plain; charset=utf-8";
    EndHeaders ].

Definition health_headers : list event :=
  [ SendResponse 200;
    SendHeader "Content-type" "application/json";
    EndHeaders ].

(** ** The exposition the specification describes

    Section 4.2 of the specification: one block per metric, a [# HELP]
    line, a [# TYPE] line and the sample, in a fixed order, the block of
    the last error only when an error is set.  This is the text the
    template is compared with below. *)

(** The values interpolated into the samples, already as text. *)
Record samples : Type := {
  pod_label : string;
  namespace_label : string;
  network_label : string;
  uptime_text : string;
  gauge_text : string;
  progress_text : string;
  bytes_text : string;
  created_text : string;
  cleaned_text : string;
  operation_label : string;
  error_label : option string
}.

Definition label (name text : string) : string := name ++ "=" ++ dq ++ text ++ dq.

Definition metric_block (name help kind labels text : string) : string :=
  "# HELP " ++ name ++ " " ++ help ++ nl
    ++ "# TYPE " ++ name ++ " " ++ kind ++ nl
    ++ name ++ labels ++ " " ++ text ++ nl.

Definition blocks (x : samples) : list string :=
  [ metric_block "snapshot_builder_info" "Information about the snapshot builder"
      "gauge"
      ("{" ++ label "pod" (pod_label x) ++ "," ++ label "namespace" (namespace_label x) ++ ","
           ++ label "network" (network_label x) ++ "}")
      "1";
    metric_block "snapshot_builder_uptime_seconds"
      "Uptime of the snapshot builder in seconds" "counter" EmptyString (uptime_text x);
    metric_block "snapshot_builder_status"
      "Current status of the builder (0=stopped, 1=running, 2=error)" "gauge"
      EmptyString (gauge_text x);
    metric_block "snapshot_builder_progress_percent"
      "Current operation progress percentage" "gauge" EmptyString (progress_text x);
    metric_block "snapshot_builder_bytes_processed_total" "Total bytes processed"
      "counter" EmptyString (bytes_text x);
    metric_block "snapshot_builder_snapshots_created_total" "Total snapshots created"
      "counter" EmptyString (created_text x);
    metric_block "snapshot_builder_snapshots_cleaned_total"
      "Total snapshots cleaned up" "counter" EmptyString (cleaned_text x);
    metric_block "snapshot_builder_last_operation_info"
      "Information about the current/last operation" "gauge"
      ("{" ++ label "operation" (operation_label x) ++ "}") "1" ]
  ++ match error_label x with
     | Some text =>
         [ metric_block "snapshot_builder_last_error_info"
             "Information about the last error" "gauge"
             ("{" ++ label "error" text ++ "}") "1" ]
     | None => []
     end.

(** Blocks are separated by one empty line. *)
Definition exposition (x : samples) : string := join nl (blocks x).

(** Line 68 with a blank after the brace that opens the field, the form
    in which a replacement field may start with a dict display. *)
Definition spaced_status_line : string :=
  "snapshot_builder_status { " ++ status_expr ++ "}".

Definition spaced_template : string := template_around spaced_status_line.

(** The samples of a record in a given environment at a given time,
    for a status gauge already looked up. *)
Definition samples_of `{rt : Runtime} (environ : environment) (now : float)
  (self : SnapshotMetrics) (looked_up : value) : samples := {|
  pod_label := environ_get environ "POD_NAME" "unknown";
  namespace_label := environ_get environ "POD_NAMESPACE" "unknown";
  network_label := environ_get environ "ETHEREUM_NETWORK" "unknown";
  uptime_text := float_repr (PrimFloat.sub now (start_time self));
  gauge_text := str looked_up;
  progress_text := str (progress_percent self);
  bytes_text := str (bytes_processed self);
  created_text := str_of_int (snapshots_created self);
  cleaned_text := str_of_int (snapshots_cleaned self);
  operation_label := str (current_operation self);
  error_label := if truthy (last_error self) then Some (str (last_error self)) else None
|}.

(** What the compiler makes of the two literals. *)
Definition spaced_segments : list FString.segment :=
  Eval vm_compute in
    match FString.scan spaced_template with
    | Return segs => segs
    | Raise _ => []
    end.

Definition last_error_segments : list FString.segment :=
  Eval vm_compute in
    match FString.scan last_error_template with
    | Return segs => segs
    | Raise _ => []
    end.

(** ** Requests in sequence *)

(** A request as [BaseHTTPRequestHandler] hands it to the class: a GET
    with its path or a POST. *)
Inductive incoming : Type :=
| GET (path : string)
| POST (req : request).

(** One request handled on a fresh connection over the module-level
    record. *)
Definition handle_request `{rt : Runtime} (p : process) (r : incoming)
  (m : SnapshotMetrics) : result unit * state :=
  match r with
  | GET path => do_GET p path (connection m)
  | POST req => do_POST req (connection m)
  end.

(** [httpd.serve_forever()] over the requests that arrive before the
    interrupt.  [socketserver.TCPServer] handles them one at a time,
    each with a handler of its own; a handler that raises ends its
    request only, and the record stays as the handler left it. *)
Fixpoint serve_forever `{rt : Runtime} (requests : list (process * incoming))
  (m : SnapshotMetrics) : SnapshotMetrics :=
  match requests with
  | [] => m
  | (p, r) :: rest => serve_forever rest (metrics (snd (handle_request p r m)))
  end.

(** The items of the JSON object a POST request delivers to lines 172
    to 183, if it delivers one: the path is [/update], the
    [Content-Length] is usable and the bytes read parse to a dict. *)
Definition posted_items `{rt : Runtime} (req : request)
  : option (list (string * value)) :=
  if String.eqb (path req) "/update" then
    match body_length req with
    | Return n =>
        match parse_body (rfile_read n (rfile req)) with
        | Return (VDict items) => Some items
        | _ => None
        end
    | Raise _ => None
    end
  else None.


(** What holds of the record at any moment of a run started at
    [started]. *)
Definition settled (started : float) (m : SnapshotMetrics) : Prop :=
  start_time m = started /\
  truthy (current_operation m) = true /\
  is_not_none (progress_percent m) = true /\
  is_not_none (bytes_processed m) = true /\
  (0 <= snapshots_created m)%Z /\
  (0 <= snapshots_cleaned m)%Z /\
  (last_error m = VStr EmptyString \/ truthy (last_error m) = true).

(** The paths [do_GET] answers with a page. *)
Definition known_path (path : string) : bool :=
  String.eqb path "/metrics" || String.eqb path "/health" || String.eqb path "/".

(** The response to a request nothing is registered for. *)
Definition not_found_response : list event := [SendResponse 404; EndHeaders].

(** The response headers of the status page. *)
Definition page_headers : list event :=
  [ SendResponse 200;
    SendHeader "Content-type" "text/html";
    EndHeaders ].

(** The same request with other bytes on the connection. *)
Definition with_rfile (data : string) (req : request) : request := {|
  path := path req;
  content_length := content_length req;
  rfile := data
|}.

(** ** Replacement fields of [str.format]

    [str.format] walks its template from the left: a doubled brace is
    one literal brace, a single opening brace starts a replacement
    field whose name runs to the first closing brace, colon or
    exclamation mark outside square brackets, and the field is looked
    up before the walk goes on.  Only the first field matters below. *)

Module Format.

Inductive first : Type :=
| NoField
| FieldName (name : string)
| Malformed (message : string).

Inductive mode : Type :=
| FText
| FOpen
| FClose
| FName (name : string)
| FIndex (name : string).

Fixpoint walk (template : string) (m : mode) : first :=
  match template with
  | EmptyString =>
      match m with
      | FText => NoField
      | FOpen => Malformed "Single '{' encountered in format string"
      | FClose => Malformed "Single '}' encountered in format string"
      | FName _ | FIndex _ => Malformed "expected '}' before end of string"
      end
  | String c rest =>
      match m with
      | FText =>
          if Ascii.eqb c "{" then walk rest FOpen
          else if Ascii.eqb c "}" then walk rest FClose
          else walk rest FText
      | FOpen =>
          if Ascii.eqb c "{" then walk rest FText
          else if Ascii.eqb c "}" || Ascii.eqb c ":" || Ascii.eqb c "!"
          then FieldName EmptyString
          else if Ascii.eqb c "[" then walk rest (FIndex (String c EmptyString))
          else walk rest (FName (String c EmptyString))
      | FClose =>
          if Ascii.eqb c "}" then walk rest FText
          else Malformed "Single '}' encountered in format string"
      | FName name =>
          if Ascii.eqb c "}" || Ascii.eqb c ":" || Ascii.eqb c "!" then FieldName name
          else if Ascii.eqb c "{" then Malformed "unexpected '{' in field name"
          else if Ascii.eqb c "[" then walk rest (FIndex (name ++ String c EmptyString))
          else walk rest (FName (name ++ String c EmptyString))
      | FIndex name =>
          if Ascii.eqb c "]" then walk rest (FName (name ++ String c EmptyString))
          else walk rest (FIndex (name ++ String c EmptyString))
      end
  end.

(** The first replacement field of a template. *)
Definition first_field (template : string) : first := walk template FText.

(** The argument a field name refers to: the name up to the first dot
    or square bracket. *)
Fixpoint argument (name : string) : string :=
  match name with
  | EmptyString => EmptyString
  | String c rest =>
      if Ascii.eqb c "." || Ascii.eqb c "[" then EmptyString
      else String c (argument rest)
  end.

End Format.

(** ** [main] *)

(** [os.environ.get(name)], [None] for a variable that is not set. *)
Fixpoint environ_lookup (environ : environment) (name : string) : option string :=
  match environ with
  | [] => None
  | (k, v) :: rest => if String.eqb k name then Some v else environ_lookup rest name
  end.

(** The f-strings of lines 202 to 204 and 207. *)
Definition starting_template : string := "Starting metrics server on port {port}".
Definition pod_template : string := "Pod: {os.environ.get('POD_NAME', 'unknown')}".
Definition network_template : string :=
  "Network: {os.environ.get('ETHEREUM_NETWORK', 'unknown')}".
Definition started_template : string :=
  "Metrics server started at http://0.0.0.0:{port}".

(** The lines 208 to 212 and 217 print. *)
Definition endpoint_lines : list string :=
  [ "Endpoints:";
    "  /metrics - Prometheus metrics";
    "  /health  - Health check";
    "  /        - Status page";
    "  POST /update - Update metrics" ].

Definition shutting_down_line : string := nl ++ "Shutting down metrics server...".

Section Main.

Context {rt : Runtime}.

(** [int(os.environ.get('METRICS_PORT', 8080))]. *)
Definition metrics_port (environ : environment) : result Z :=
  match environ_lookup environ "METRICS_PORT" with
  | Some text => int_of_str text
  | None => Return 8080%Z
  end.

(** The expressions in the replacement fields of [main]. *)
Definition main_value (environ : environment) (port : Z) (expr : string)
  : result value :=
  if String.eqb expr "port" then Return (VInt port)
  else if String.eqb expr "os.environ.get('POD_NAME', 'unknown')"
  then Return (VStr (environ_get environ "POD_NAME" "unknown"))
  else if String.eqb expr "os.environ.get('ETHEREUM_NETWORK', 'unknown')"
  then Return (VStr (environ_get environ "ETHEREUM_NETWORK" "unknown"))
  else Raise (Exn "NameError" ("name '" ++ expr ++ "' is not defined")).

Definition formatted (environ : environment) (port : Z) (template : string)
  : result string :=
  (segs <- FString.scan template ;; FString.render (main_value environ port) segs)%py.

(** What [main] has printed so far, and how a step of it ended. *)
Definition printing (A : Type) : Type := list string -> list string * result A.

Definition and_then {A B : Type} (step : printing A) (k : A -> printing B)
  : printing B :=
  fun printed =>
    match step printed with
    | (printed', Return a) => k a printed'
    | (printed', Raise e) => (printed', Raise e)
    end.

(** A call that prints nothing. *)
Definition quietly {A : Type} (r : result A) : printing A :=
  fun printed => (printed, r).

(** [print(text)], the text being evaluated first. *)
Definition print (text : result string) : printing unit :=
  fun printed =>
    match text with
    | Return line => ((printed ++ [line])%list, Return tt)
    | Raise e => (printed, Raise e)
    end.

Fixpoint print_all (lines : list string) : printing unit :=
  match lines with
  | [] => quietly (Return tt)
  | line :: rest => and_then (print (Return line)) (fun _ => print_all rest)
  end.

(** [main()].  [listen] is the answer of [socketserver.TCPServer] to
    the port it is asked to bind at line 206: it raises for a port that
    is out of range, taken or not permitted.  Once the port is bound
    the server handles the given requests and is then interrupted. *)
Definition main (environ : environment) (listen : Z -> result unit)
  (requests : list (process * incoming)) (m : SnapshotMetrics)
  : list string * result SnapshotMetrics :=
  and_then (quietly (metrics_port environ)) (fun port =>
  and_then (print (formatted environ port starting_template)) (fun _ =>
  and_then (print (formatted environ port pod_template)) (fun _ =>
  and_then (print (formatted environ port network_template)) (fun _ =>
  and_then (quietly (listen port)) (fun _ =>
  and_then (print (formatted environ port started_template)) (fun _ =>
  and_then (print_all endpoint_lines) (fun _ =>
  let served := serve_forever requests m in
  and_then (print (Return shutting_down_line)) (fun _ =>
  quietly (on_interrupt served))))))))) [].

End Main.

(** Further requests for the examples. *)
Module More.

(** A request to [/update] whose [Content-Length] is not a number. *)
Definition post_bad_length : request := {|
  path := "/update";
  content_length := Some "abc";
  rfile := Sample.body_progress_42
|}.

(** A request to [/update] without [Content-Length]. *)
Definition post_no_length : request := {|
  path := "/update";
  content_length := None;
  rfile := Sample.body_progress_42
|}.

(** A POST to a path nothing is registered for. *)
Definition post_elsewhere : request := {|
  path := "/metrics";
  content_length := Some "abc";
  rfile := Sample.body_progress_42
|}.

(** A record with an error set. *)
Definition failed : SnapshotMetrics := set_error (VStr "disk full") Sample.at_start.

(** A host on which every port of the valid range can be bound. *)
Definition listen (port : Z) : result unit :=
  if ((0 <=? port) && (port <=? 65535))%Z then Return tt
  else Raise (Exn "OverflowError" "bind(): port must be 0-65535.").

End More.

(** * Properties *)

(** ** The exposition template *)

(** Line 68 opens its field with two braces.  They read as one literal
    brace, no field is open when the brace that closes the dict display
    arrives, and the literal is refused. *)
Lemma scan_status_line : FString.scan status_line = Raise single_brace.
Proof. vm_compute. reflexivity. Qed.

(** The scanner on small literals: escapes, a field, a field that
    starts with a dict display, and the two ways to get it wrong. *)
Example scan_escaped_braces :
  FString.scan "{{x}}" = Return [FString.Lit "{x}"].
Proof. reflexivity. Qed.

Example scan_one_field :
  FString.scan "a {x} b{{"
  = Return [FString.Lit "a "; FString.Field "x" None EmptyString; FString.Lit " b{"].
Proof. reflexivity. Qed.

Example scan_dict_display_after_blank :
  FString.scan "{ {1: 2}.get(k, 0)}"
  = Return [FString.Field " {1: 2}.get(k, 0)" None EmptyString].
Proof. reflexivity. Qed.

Example scan_dict_display_after_doubled_brace :
  FString.scan "{{1: 2}.get(k, 0)}" = Raise single_brace.
Proof. reflexivity. Qed.

Example scan_lone_closing_brace : FString.scan "a } b" = Raise single_brace.
Proof. reflexivity. Qed.

Example str_of_int_examples :
  str_of_int 42 = "42" /\ str_of_int 0 = "0" /\ str_of_int (-7) = "-7".
Proof. repeat split. Qed.

Lemma scan_metrics_template : FString.scan metrics_template = Raise single_brace.
Proof. vm_compute. reflexivity. Qed.

Lemma get_metrics_raises `{rt : Runtime} (environ : environment) (now : float)
  (self : SnapshotMetrics) :
  get_metrics environ now self = Raise single_brace.
Proof.
  unfold get_metrics, get_metrics_over.
  rewrite scan_metrics_template. reflexivity.
Qed.

(** C1.  The status line is never rendered: the f-string that holds it
    is refused by the compiler, so for every record, environment and
    clock reading [get_metrics] yields [SyntaxError] where the
    specification expects a line with the table's value for the
    current status. *)
Theorem status_gauge_line_is_refused :
  FString.scan status_line = Raise single_brace /\
  forall (rt : Runtime) (environ : environment) (now : float)
         (self : SnapshotMetrics),
    get_metrics environ now self = Raise single_brace.
Proof.
  split.
  - exact scan_status_line.
  - intros. apply get_metrics_raises.
Qed.

(** ** [update_status] *)

Lemma update_status_given (s : value) (op p b : option value) (self : SnapshotMetrics) :
  update_status (Some s) op p b self =
  Return {|
    start_time := start_time self;
    status := s;
    current_operation := kept_unless_truthy op (current_operation self);
    progress_percent := kept_unless_given p (progress_percent self);
    bytes_processed := kept_unless_given b (bytes_processed self);
    snapshots_created := snapshots_created self;
    snapshots_cleaned := snapshots_cleaned self;
    last_error := last_error self
  |}.
Proof.
  unfold update_status, kept_unless_truthy, kept_unless_given.
  destruct op as [op|]; destruct p as [p|]; destruct b as [b|]; cbn;
    repeat match goal with
           | |- context [truthy ?v] => destruct (truthy v)
           | |- context [is_not_none ?v] => destruct (is_not_none v)
           end; reflexivity.
Qed.

(** C2, as the code has it.  [update_status] always overwrites [status]
    with its first argument, which is required: a call without it
    raises [TypeError] and changes nothing.  [operation] overwrites
    [current_operation] only when it is truthy, [progress] and
    [bytes_processed] overwrite their fields only when they are not
    [None]; the counters, the start time and the last error are never
    touched.  The call is therefore a no-op when the status passed is
    the current one and the other arguments are absent or empty. *)
Theorem update_status_overwrites_status :
  forall (op p b : option value) (self : SnapshotMetrics),
    (forall s : value,
        update_status (Some s) op p b self =
        Return {|
          start_time := start_time self;
          status := s;
          current_operation := kept_unless_truthy op (current_operation self);
          progress_percent := kept_unless_given p (progress_percent self);
          bytes_processed := kept_unless_given b (bytes_processed self);
          snapshots_created := snapshots_created self;
          snapshots_cleaned := snapshots_cleaned self;
          last_error := last_error self
        |}) /\
    (exists e, update_status None op p b self = Raise e) /\
    update_status (Some (status self)) None None None self = Return self /\
    update_status (Some (status self)) (Some (VStr EmptyString)) (Some VNone)
      (Some VNone) self = Return self.
Proof.
  intros op p b self. split; [| split; [| split]].
  - intros s. apply update_status_given.
  - eexists. reflexivity.
  - destruct self. reflexivity.
  - destruct self. reflexivity.
Qed.

(** C2, as the specification has it, fails: with an empty status, an
    empty operation and no progress or byte count, the call on a fresh
    record replaces the status [running] by the empty string. *)
Lemma update_status_empty_status_is_not_a_noop :
  update_status (Some (VStr EmptyString)) (Some (VStr EmptyString)) None None
    Sample.at_start <> Return Sample.at_start /\
  (exists after,
      update_status (Some (VStr EmptyString)) None None None Sample.at_start
      = Return after /\
      status Sample.at_start = VStr "running" /\
      status after = VStr EmptyString).
Proof.
  split.
  - intros H. discriminate H.
  - eexists. split; [reflexivity | split; reflexivity].
Qed.

(** ** [do_POST] *)

Section Post.

Context {rt : Runtime}.

Lemma emit_four (a b c d : event) (s : state) :
  (seq (emit a) (fun _ => seq (emit b) (fun _ => seq (emit c) (fun _ => emit d)))) s
  = (Return tt, State (metrics s) (sent s ++ [a; b; c; d])%list).
Proof.
  unfold seq, emit. cbn. rewrite <- !app_assoc. reflexivity.
Qed.

Lemma reply_error_sends (e : exn) (s : state) :
  reply_error e s = (Return tt, State (metrics s) (sent s ++ error_response e)%list).
Proof. unfold reply_error. apply emit_four. Qed.

(** A request to [/update] whose [Content-Length] is an integer runs the
    [try] statement on the bytes read. *)
Lemma do_POST_update (req : request) (n : Z) (s : state) :
  path req = "/update" ->
  body_length req = Return n ->
  do_POST req s =
  try_except
    (seq (lift (parse_body (rfile_read n (rfile req))))
       (fun data =>
          seq (apply_update data)
            (fun _ =>
               seq (send_response 200)
                 (fun _ =>
                    seq (send_header "Content-type" "application/json")
                      (fun _ => seq end_headers (fun _ => wfile_write updated_body))))))
    reply_error s.
Proof.
  intros Hpath Hlen. unfold do_POST. rewrite Hpath. cbn [String.eqb].
  change (String.eqb "/update" "/update") with true. cbn iota.
  unfold seq at 1. unfold lift at 1. rewrite Hlen. reflexivity.
Qed.

(** A body that does not parse: nothing of the [try] statement runs
    beyond the parse. *)
Lemma do_POST_unparsable (req : request) (n : Z) (e : exn) (s : state) :
  path req = "/update" ->
  body_length req = Return n ->
  parse_body (rfile_read n (rfile req)) = Raise e ->
  do_POST req s = (Return tt, State (metrics s) (sent s ++ error_response e)%list).
Proof.
  intros Hpath Hlen Hparse.
  rewrite (do_POST_update req n s Hpath Hlen).
  unfold try_except, seq at 1, lift at 1. rewrite Hparse.
  apply reply_error_sends.
Qed.

Lemma apply_update_dict (items : list (string * value)) (s : state) :
  apply_update (VDict items) s
  = (Return tt, State (after_update items (metrics s)) (sent s)).
Proof.
  unfold apply_update, after_update, item, item_or.
  unfold seq, read, lift, call_raising, call, when, ret, Py.get, Py.getitem.
  cbn [metrics sent].
  rewrite update_status_given.
  destruct (lookup "snapshots_created" items) as [c|];
    destruct (lookup "snapshots_cleaned" items) as [d|];
    destruct (lookup "error" items) as [e|];
    cbn [truthy metrics sent];
    repeat match goal with
           | |- context [truthy ?v] => destruct (truthy v)
           end; reflexivity.
Qed.

(** A value that is not a dict has no [get]: the first line of the
    update raises before the record is touched. *)
Lemma apply_update_not_dict (data : value) (s : state) :
  is_json_object (Return data) = false ->
  apply_update data s
  = (Raise (Exn "AttributeError"
              ("'" ++ type_name data ++ "' object has no attribute 'get'")), s).
Proof.
  intros H. destruct data; try discriminate H; reflexivity.
Qed.

(** A body that parses to a JSON object: the update runs to its end and
    the success response follows. *)
Lemma do_POST_object (req : request) (n : Z) (items : list (string * value))
  (s : state) :
  path req = "/update" ->
  body_length req = Return n ->
  parse_body (rfile_read n (rfile req)) = Return (VDict items) ->
  do_POST req s
  = (Return tt,
     State (after_update items (metrics s)) (sent s ++ updated_response)%list).
Proof.
  intros Hpath Hlen Hparse.
  rewrite (do_POST_update req n s Hpath Hlen).
  unfold try_except, seq at 1, lift at 1. rewrite Hparse.
  unfold seq at 1. rewrite apply_update_dict.
  unfold send_response, send_header, end_headers, wfile_write.
  rewrite emit_four. reflexivity.
Qed.

(** A body that parses to something else than an object. *)
Lemma do_POST_not_object (req : request) (n : Z) (data : value) (s : state) :
  path req = "/update" ->
  body_length req = Return n ->
  parse_body (rfile_read n (rfile req)) = Return data ->
  is_json_object (Return data) = false ->
  do_POST req s
  = (Return tt,
     State (metrics s)
       (sent s ++ error_response
                    (Exn "AttributeError"
                       ("'" ++ type_name data ++ "' object has no attribute 'get'")))%list).
Proof.
  intros Hpath Hlen Hparse Hshape.
  rewrite (do_POST_update req n s Hpath Hlen).
  unfold try_except, seq at 1, lift at 1. rewrite Hparse.
  unfold seq at 1. rewrite (apply_update_not_dict data s Hshape).
  apply reply_error_sends.
Qed.

End Post.

(** ** The update endpoint *)


Section Sample_unparsable_body_answers_400_on_not_json.

#[local] Existing Instance Sample.runtime.


End Sample_unparsable_body_answers_400_on_not_json.


Section Sample_counters_follow_truthiness_on_zero.

#[local] Existing Instance Sample.runtime.


End Sample_counters_follow_truthiness_on_zero.


Section Sample_update_fails_only_on_non_objects_on_a_list.

#[local] Existing Instance Sample.runtime.


End Sample_update_fails_only_on_non_objects_on_a_list.

(** ** [do_GET] *)

Section Get.

Context {rt : Runtime}.

Lemma emit_three (a b c : event) {A : Type} (k : handler A) (s : state) :
  (seq (emit a) (fun _ => seq (emit b) (fun _ => seq (emit c) (fun _ => k)))) s
  = k (State (metrics s) (sent s ++ [a; b; c])%list).
Proof.
  unfold seq, emit. cbn. rewrite <- !app_assoc. reflexivity.
Qed.

(** [/metrics]: the status line and headers go out, then the call of
    [get_metrics] raises and nothing is written. *)
Lemma do_GET_metrics (p : process) (s : state) :
  do_GET p "/metrics" s
  = (Raise single_brace, State (metrics s) (sent s ++ metrics_headers)%list).
Proof.
  unfold do_GET. change (String.eqb "/metrics" "/metrics") with true. cbn iota.
  unfold send_response, send_header, end_headers. rewrite emit_three.
  unfold seq, read, lift. cbn [metrics sent].
  rewrite get_metrics_raises. reflexivity.
Qed.

(** [/health]: the JSON document of [health_data]. *)
Lemma do_GET_health (p : process) (s : state) :
  do_GET p "/health" s
  = (Return tt,
     State (metrics s)
       (sent s ++ health_headers
               ++ [Write (json_dumps (Some 2%Z) (health_data p (metrics s)))])%list).
Proof.
  unfold do_GET. change (String.eqb "/health" "/metrics") with false.
  change (String.eqb "/health" "/health") with true. cbn iota.
  unfold send_response, send_header, end_headers. rewrite emit_three.
  unfold seq, read, wfile_write, emit. cbn [metrics sent].
  rewrite <- app_assoc. reflexivity.
Qed.

(** No GET request changes the record. *)
Lemma do_GET_keeps_record (p : process) (path : string) (s : state) :
  metrics (snd (do_GET p path s)) = metrics s.
Proof.
  unfold do_GET.
  destruct (String.eqb path "/metrics");
    [| destruct (String.eqb path "/health"); [| destruct (String.eqb path "/")]];
    unfold send_response, send_header, end_headers.
  - rewrite emit_three. unfold seq, read, lift, wfile_write, emit. cbn [metrics sent].
    destruct (get_metrics _ _ _); reflexivity.
  - rewrite emit_three. reflexivity.
  - rewrite emit_three. unfold seq, read, lift, wfile_write, emit. cbn [metrics sent].
    destruct (str_format _ _); reflexivity.
  - reflexivity.
Qed.

End Get.

(** ** The counters *)

Lemma perform_counters (op : operation) (self : SnapshotMetrics) :
  snapshots_created (perform op self)
  = (snapshots_created self + created_calls [op])%Z /\
  snapshots_cleaned (perform op self)
  = (snapshots_cleaned self + cleaned_calls [op])%Z.
Proof.
  destruct op as [s op p b | | | e | environ now]; cbn; try (split; lia).
  destruct s as [s|]; [rewrite update_status_given |]; cbn; split; lia.
Qed.

Lemma perform_all_counters (ops : list operation) :
  forall self : SnapshotMetrics,
    snapshots_created (perform_all ops self)
    = (snapshots_created self + created_calls ops)%Z /\
    snapshots_cleaned (perform_all ops self)
    = (snapshots_cleaned self + cleaned_calls ops)%Z.
Proof.
  induction ops as [| op rest IH]; intros self.
  - cbn. split; lia.
  - cbn [perform_all].
    destruct (IH (perform op self)) as [Hcreated Hcleaned].
    destruct (perform_counters op self) as [Hc Hd].
    rewrite Hcreated, Hcleaned, Hc, Hd.
    destruct op; cbn [created_calls cleaned_calls]; split; lia.
Qed.

Lemma created_calls_repeat (n : nat) :
  created_calls (repeat IncrementSnapshotsCreated n) = Z.of_nat n.
Proof.
  induction n as [| n IH].
  - reflexivity.
  - cbn [repeat created_calls]. rewrite IH. lia.
Qed.

Lemma calls_nonnegative (ops : list operation) :
  (0 <= created_calls ops)%Z /\ (0 <= cleaned_calls ops)%Z.
Proof.
  induction ops as [| op rest [IHc IHd]]; [cbn; lia |].
  destruct op; cbn [created_calls cleaned_calls]; lia.
Qed.

(** Requests never lower a counter either. *)
Lemma do_POST_counters `{rt : Runtime} (req : request) (s : state) :
  (snapshots_created (metrics s)
   <= snapshots_created (metrics (snd (do_POST req s))))%Z /\
  (snapshots_cleaned (metrics s)
   <= snapshots_cleaned (metrics (snd (do_POST req s))))%Z.
Proof.
  destruct (String.eqb (path req) "/update") eqn:Hpath.
  - apply String.eqb_eq in Hpath.
    destruct (body_length req) as [n | e] eqn:Hlen.
    + destruct (parse_body (rfile_read n (rfile req))) as [data | e] eqn:Hparse.
      * destruct (is_json_object (Return data)) eqn:Hshape.
        -- destruct data; try discriminate Hshape.
           rewrite (do_POST_object req n items s Hpath Hlen Hparse).
           cbn [snd metrics]. unfold after_update.
           repeat match goal with
                  | |- context [truthy ?v] => destruct (truthy v)
                  end; cbn; lia.
        -- rewrite (do_POST_not_object req n data s Hpath Hlen Hparse Hshape).
           cbn. lia.
      * rewrite (do_POST_unparsable req n e s Hpath Hlen Hparse). cbn. lia.
    + unfold do_POST. rewrite Hpath. cbn.
      unfold seq at 1, lift at 1. rewrite Hlen. cbn. lia.
  - unfold do_POST. rewrite Hpath. cbn. lia.
Qed.

(** C6.  Under the lock every call is one whole step, so the record
    goes through a sequence of calls whatever the threads do.  After
    any such sequence each counter is its initial value plus the number
    of its increment calls in the sequence: [N] calls of
    [increment_snapshots_created] add exactly [N], from a fresh record
    they give [N].  No method and no request lowers either counter. *)
Theorem counters_are_lossless_and_monotone :
  (forall (ops : list operation) (self : SnapshotMetrics),
      snapshots_created (perform_all ops self)
      = (snapshots_created self + created_calls ops)%Z /\
      snapshots_cleaned (perform_all ops self)
      = (snapshots_cleaned self + cleaned_calls ops)%Z) /\
  (forall (n : nat) (self : SnapshotMetrics),
      snapshots_created (perform_all (repeat IncrementSnapshotsCreated n) self)
      = (snapshots_created self + Z.of_nat n)%Z) /\
  (forall (n : nat) (now : float),
      snapshots_created (perform_all (repeat IncrementSnapshotsCreated n) (init now))
      = Z.of_nat n) /\
  (forall (ops : list operation) (self : SnapshotMetrics),
      (snapshots_created self <= snapshots_created (perform_all ops self))%Z /\
      (snapshots_cleaned self <= snapshots_cleaned (perform_all ops self))%Z) /\
  (forall (rt : Runtime) (req : request) (s : state),
      (snapshots_created (metrics s)
       <= snapshots_created (metrics (snd (do_POST req s))))%Z /\
      (snapshots_cleaned (metrics s)
       <= snapshots_cleaned (metrics (snd (do_POST req s))))%Z) /\
  (forall (rt : Runtime) (p : process) (path : string) (s : state),
      metrics (snd (do_GET p path s)) = metrics s).
Proof.
  split; [| split; [| split; [| split; [| split]]]].
  - apply perform_all_counters.
  - intros n self.
    destruct (perform_all_counters (repeat IncrementSnapshotsCreated n) self) as [H _].
    rewrite H, created_calls_repeat. reflexivity.
  - intros n now.
    destruct (perform_all_counters (repeat IncrementSnapshotsCreated n) (init now))
      as [H _].
    rewrite H, created_calls_repeat. cbn. lia.
  - intros ops self.
    destruct (perform_all_counters ops self) as [Hc Hd].
    destruct (calls_nonnegative ops). lia.
  - intros rt req s. apply do_POST_counters.
  - intros rt p path s. apply do_GET_keeps_record.
Qed.

(** ** The exposition as served *)

(** C4.  The two templates announce the eight metrics of the
    specification in its order and the ninth for the last error, but
    no block is ever rendered: [get_metrics] returns no text for any
    record, and a GET of [/metrics] sends the headers of a 200 response
    and then fails without writing a body. *)
Theorem exposition_blocks_are_never_rendered :
  announced (metrics_lines status_line)
  = [ "snapshot_builder_info";
      "snapshot_builder_uptime_seconds";
      "snapshot_builder_status";
      "snapshot_builder_progress_percent";
      "snapshot_builder_bytes_processed_total";
      "snapshot_builder_snapshots_created_total";
      "snapshot_builder_snapshots_cleaned_total";
      "snapshot_builder_last_operation_info" ] /\
  announced last_error_lines = ["snapshot_builder_last_error_info"] /\
  (forall (rt : Runtime) (environ : environment) (now : float)
          (self : SnapshotMetrics) (text : string),
      get_metrics environ now self <> Return text) /\
  (forall (rt : Runtime) (p : process) (m : SnapshotMetrics),
      do_GET p "/metrics" (connection m) = (Raise single_brace, State m metrics_headers) /\
      body_written (sent (snd (do_GET p "/metrics" (connection m)))) = EmptyString).
Proof.
  split; [vm_compute; reflexivity |].
  split; [vm_compute; reflexivity |].
  split.
  - intros rt environ now self text H.
    rewrite get_metrics_raises in H. discriminate H.
  - intros rt p m. rewrite do_GET_metrics. split; reflexivity.
Qed.


Section Sample_progress_is_stored_but_not_served.

#[local] Existing Instance Sample.runtime.


End Sample_progress_is_stored_but_not_served.


Section Sample_empty_status_is_stored.

#[local] Existing Instance Sample.runtime.


End Sample_empty_status_is_stored.

(** ** The info line *)


(** ** The template with the field of line 68 opened

    Evidence that the defect is the doubled brace alone: with a blank
    after the first brace the same template renders the exposition of
    the specification. *)

Lemma append_assoc (a b c : string) : (a ++ b) ++ c = a ++ (b ++ c).
Proof.
  induction a as [| ch a IH]; cbn.
  - reflexivity.
  - rewrite IH. reflexivity.
Qed.

Lemma append_empty (a : string) : a ++ EmptyString = a.
Proof.
  induction a as [| ch a IH]; cbn.
  - reflexivity.
  - rewrite IH. reflexivity.
Qed.

Section Spaced.

Context {rt : Runtime}.

Lemma scan_spaced_template : FString.scan spaced_template = Return spaced_segments.
Proof. vm_compute. reflexivity. Qed.

Lemma scan_last_error_template :
  FString.scan last_error_template = Return last_error_segments.
Proof. vm_compute. reflexivity. Qed.

Lemma format_plain (v : value) : format_value v None EmptyString = Return (str v).
Proof. reflexivity. Qed.

Lemma render_lit (scope : string -> result value) (text : string)
  (rest : list FString.segment) :
  FString.render scope (FString.Lit text :: rest)
  = Py.bind (FString.render scope rest) (fun tail => Return (text ++ tail)).
Proof. reflexivity. Qed.

Lemma render_field (scope : string -> result value) (expr : string)
  (rest : list FString.segment) (v : value) :
  scope (FString.strip expr) = Return v ->
  FString.render scope (FString.Field expr None EmptyString :: rest)
  = Py.bind (FString.render scope rest) (fun tail => Return (str v ++ tail)).
Proof.
  intros H. cbn [FString.render]. rewrite H. cbn [Py.bind]. rewrite format_plain.
  reflexivity.
Qed.

Lemma field_values (p n w : string) (u : float) (self : SnapshotMetrics) :
  let scope := field_value p n w u self in
  scope "pod_name" = Return (VStr p) /\
  scope "namespace" = Return (VStr n) /\
  scope "network" = Return (VStr w) /\
  scope "uptime" = Return (VFloat u) /\
  scope status_expr = get_key status_table (status self) (VInt 0) /\
  scope "self.progress_percent" = Return (progress_percent self) /\
  scope "self.bytes_processed" = Return (bytes_processed self) /\
  scope "self.snapshots_created" = Return (VInt (snapshots_created self)) /\
  scope "self.snapshots_cleaned" = Return (VInt (snapshots_cleaned self)) /\
  scope "self.current_operation" = Return (current_operation self) /\
  scope "self.last_error" = Return (last_error self).
Proof. repeat split. Qed.

Ltac strip_fields :=
  repeat match goal with
         | |- context [FString.strip ?e] =>
             let v := eval vm_compute in (FString.strip e) in
             change (FString.strip e) with v
         end.

(** With the field opened, [get_metrics] writes the exposition of the
    specification for the gauge found in the table, and raises the
    table's [TypeError] for a status that cannot be hashed. *)
Lemma get_metrics_over_spaced (environ : environment) (now : float)
  (self : SnapshotMetrics) :
  get_metrics_over spaced_template environ now self
  = match get_key status_table (status self) (VInt 0) with
    | Return looked_up => Return (exposition (samples_of environ now self looked_up))
    | Raise e => Raise e
    end.
Proof.
  unfold get_metrics_over.
  rewrite scan_spaced_template, scan_last_error_template. cbn [Py.bind].
  destruct (field_values (environ_get environ "POD_NAME" "unknown")
              (environ_get environ "POD_NAMESPACE" "unknown")
              (environ_get environ "ETHEREUM_NETWORK" "unknown")
              (PrimFloat.sub now (start_time self)) self)
    as (Hpod & Hns & Hnet & Hup & Hstatus & Hprogress & Hbytes & Hcreated
        & Hcleaned & Hop & Herr).
  set (scope := field_value _ _ _ _ self) in *.
  unfold spaced_segments, last_error_segments.
  cbn [FString.render]. strip_fields.
  let v := eval vm_compute in status_expr in
  change (scope v) with (scope status_expr).
  rewrite Hpod, Hns, Hnet, Hup, Hstatus, Hprogress, Hbytes, Hcreated, Hcleaned,
    Hop, Herr.
  cbn [Py.bind]. rewrite ?format_plain. cbn [Py.bind].
  destruct (get_key status_table (status self) (VInt 0)) as [looked_up | e];
    [| reflexivity].
  cbn [Py.bind]. rewrite ?format_plain. cbn [Py.bind].
  unfold exposition, blocks, samples_of, metric_block, label.
  cbn [pod_label namespace_label network_label uptime_text gauge_text progress_text
         bytes_text created_text cleaned_text operation_label error_label].
  change (str (VStr ?x)) with x.
  destruct (truthy (last_error self));
    cbn [app join]; f_equal;
    cbn [append nl dq ascii_of_nat ascii_of_pos Pos.of_succ_nat Pos.succ shift];
    repeat (rewrite ?append_assoc; rewrite ?append_empty; cbn [append]);
    reflexivity.
Qed.

End Spaced.

(** What the table of line 68 gives: the three known states, zero for
    any other hashable value, a [TypeError] for a list or a dict. *)
Lemma status_table_lookup :
  get_key status_table (VStr "running") (VInt 0) = Return (VInt 1) /\
  get_key status_table (VStr "stopped") (VInt 0) = Return (VInt 0) /\
  get_key status_table (VStr "error") (VInt 0) = Return (VInt 2) /\
  get_key status_table (VStr EmptyString) (VInt 0) = Return (VInt 0) /\
  get_key status_table VNone (VInt 0) = Return (VInt 0) /\
  (forall items,
      get_key status_table (VList items) (VInt 0)
      = Raise (Exn "TypeError" "unhashable type: 'list'")) /\
  (forall items,
      get_key status_table (VDict items) (VInt 0)
      = Raise (Exn "TypeError" "unhashable type: 'dict'")).
Proof. repeat split. Qed.

(** With a blank after the brace that opens the field of line 68,
    [get_metrics] returns the exposition of section 4.2 of the
    specification, eight blocks and a ninth exactly when [last_error]
    is truthy, with the gauge the table gives for the status; a status
    that is a list or a dict makes the lookup raise instead. *)
Theorem spaced_template_renders_the_exposition :
  forall (rt : Runtime) (environ : environment) (now : float)
         (self : SnapshotMetrics),
    get_metrics_over spaced_template environ now self
    = match get_key status_table (status self) (VInt 0) with
      | Return looked_up =>
          Return (exposition (samples_of environ now self looked_up))
      | Raise e => Raise e
      end /\
    forall looked_up : value,
      List.length (blocks (samples_of environ now self looked_up))
      = if truthy (last_error self) then 9%nat else 8%nat.
Proof.
  intros rt environ now self. split.
  - apply get_metrics_over_spaced.
  - intros looked_up. unfold blocks, samples_of. cbn [error_label].
    destruct (truthy (last_error self)); reflexivity.
Qed.

(** ** Requests that change nothing, and the interrupt *)


Section Sample_empty_object_changes_nothing.

#[local] Existing Instance Sample.runtime.


End Sample_empty_object_changes_nothing.

(** The interrupt handler of [main] records the status [stopped] and
    the operation [shutdown] and keeps everything else. *)
Theorem interrupt_records_shutdown :
  forall m : SnapshotMetrics,
    on_interrupt m
    = Return {|
        start_time := start_time m;
        status := VStr "stopped";
        current_operation := VStr "shutdown";
        progress_percent := progress_percent m;
        bytes_processed := bytes_processed m;
        snapshots_created := snapshots_created m;
        snapshots_cleaned := snapshots_cleaned m;
        last_error := last_error m
      |}.
Proof. intros m. reflexivity. Qed.

(** ** Any sequence of requests *)

Section Serving.

Context {rt : Runtime}.

(** The record after a POST: updated by the object delivered, or as it
    was. *)
Lemma do_POST_record (req : request) (s : state) :
  metrics (snd (do_POST req s))
  = match posted_items req with
    | Some items => after_update items (metrics s)
    | None => metrics s
    end.
Proof.
  unfold posted_items.
  destruct (String.eqb (path req) "/update") eqn:Hpath.
  - apply String.eqb_eq in Hpath.
    destruct (body_length req) as [n | e] eqn:Hlen.
    + destruct (parse_body (rfile_read n (rfile req))) as [data | e] eqn:Hparse.
      * destruct (is_json_object (Return data)) eqn:Hshape.
        -- destruct data; try discriminate Hshape.
           rewrite (do_POST_object req n items s Hpath Hlen Hparse). reflexivity.
        -- rewrite (do_POST_not_object req n data s Hpath Hlen Hparse Hshape).
           destruct data; try discriminate Hshape; reflexivity.
      * rewrite (do_POST_unparsable req n e s Hpath Hlen Hparse). reflexivity.
    + unfold do_POST. rewrite Hpath. cbn iota.
      unfold seq at 1, lift at 1. rewrite Hlen. reflexivity.
  - unfold do_POST. rewrite Hpath. reflexivity.
Qed.

Lemma handle_request_record (p : process) (r : incoming) (m : SnapshotMetrics) :
  metrics (snd (handle_request p r m))
  = match r with
    | GET _ => m
    | POST req =>
        match posted_items req with
        | Some items => after_update items m
        | None => m
        end
    end.
Proof.
  destruct r as [path | req]; cbn [handle_request].
  - apply do_GET_keeps_record.
  - apply do_POST_record.
Qed.

Lemma init_settled (now : float) : settled now (init now).
Proof.
  unfold settled, init. cbn. repeat split; try lia. left. reflexivity.
Qed.

Lemma after_update_settled (started : float) (items : list (string * value))
  (m : SnapshotMetrics) :
  settled started m -> settled started (after_update items m).
Proof.
  intros (Hstart & Hop & Hprogress & Hbytes & Hcreated & Hcleaned & Herror).
  unfold settled, after_update, kept_unless_truthy, kept_unless_given.
  destruct (truthy (item items "snapshots_created"));
    destruct (truthy (item items "snapshots_cleaned"));
    destruct (truthy (item items "error")) eqn:Herr;
    cbn [start_time current_operation progress_percent bytes_processed
           snapshots_created snapshots_cleaned last_error set_error
           increment_snapshots_created increment_snapshots_cleaned];
    (split; [exact Hstart |]);
    (split; [destruct (truthy (item_or items "operation" (VStr EmptyString))) eqn:H;
             [exact H | exact Hop] |]);
    (split; [destruct (is_not_none (item items "progress")) eqn:H;
             [exact H | exact Hprogress] |]);
    (split; [destruct (is_not_none (item items "bytes_processed")) eqn:H;
             [exact H | exact Hbytes] |]);
    (split; [lia |]); (split; [lia |]);
    first [right; exact Herr | exact Herror].
Qed.

Lemma handle_request_settled (started : float) (p : process) (r : incoming)
  (m : SnapshotMetrics) :
  settled started m -> settled started (metrics (snd (handle_request p r m))).
Proof.
  intros H. rewrite handle_request_record.
  destruct r as [path | req]; [exact H |].
  destruct (posted_items req); [apply after_update_settled; exact H | exact H].
Qed.

Lemma serve_forever_settled (started : float) (requests : list (process * incoming)) :
  forall m : SnapshotMetrics,
    settled started m -> settled started (serve_forever requests m).
Proof.
  induction requests as [| [p r] rest IH]; intros m H.
  - exact H.
  - cbn [serve_forever]. apply IH. apply handle_request_settled. exact H.
Qed.




Lemma after_update_keeps_error (items : list (string * value)) (m : SnapshotMetrics) :
  truthy (last_error m) = true -> truthy (last_error (after_update items m)) = true.
Proof.
  intros H. unfold after_update.
  destruct (truthy (item items "snapshots_created"));
    destruct (truthy (item items "snapshots_cleaned"));
    destruct (truthy (item items "error")) eqn:Herr; cbn; assumption.
Qed.

Lemma serve_forever_keeps_error (requests : list (process * incoming)) :
  forall m : SnapshotMetrics,
    truthy (last_error m) = true ->
    truthy (last_error (serve_forever requests m)) = true.
Proof.
  induction requests as [| [p r] rest IH]; intros m H.
  - exact H.
  - cbn [serve_forever]. apply IH. rewrite handle_request_record.
    destruct r as [path | req]; [exact H |].
    destruct (posted_items req); [apply after_update_keeps_error; exact H | exact H].
Qed.

End Serving.

(** X3.  Whatever requests are served after the start, the record keeps
    its start time, its operation stays truthy, its progress and byte
    count are never [None], its counters are never negative, and its
    last error is the empty string or truthy. *)
Theorem record_stays_settled :
  forall (rt : Runtime) (now : float) (requests : list (process * incoming)),
    let m := serve_forever requests (init now) in
    start_time m = now /\
    truthy (current_operation m) = true /\
    is_not_none (progress_percent m) = true /\
    is_not_none (bytes_processed m) = true /\
    (0 <= snapshots_created m)%Z /\
    (0 <= snapshots_cleaned m)%Z /\
    (last_error m = VStr EmptyString \/ truthy (last_error m) = true).
Proof.
  intros rt now requests.
  exact (serve_forever_settled now requests (init now) (init_settled now)).
Qed.


(** X5.  No request clears an error: once [last_error] is truthy it is
    truthy after every sequence of requests.  A body can replace the
    error by another truthy value, an empty or missing ["error"] leaves
    it. *)
Theorem error_is_never_cleared `{rt : Runtime}
  (requests : list (process * incoming)) (m : SnapshotMetrics) :
  truthy (last_error m) = true ->
  truthy (last_error (serve_forever requests m)) = true.
Proof. apply serve_forever_keeps_error. Qed.

Section Sample_error_is_never_cleared.

#[local] Existing Instance Sample.runtime.

Lemma error_is_never_cleared_by_an_empty_object :
  truthy (last_error
            (serve_forever
               [ (Sample.at_noon, POST (Sample.post Sample.body_empty_object));
                 (Sample.at_noon, GET "/health");
                 (Sample.at_noon, POST (Sample.post Sample.body_status_empty)) ]
               More.failed)) = true.
Proof.
  apply (@error_is_never_cleared Sample.runtime). reflexivity.
Defined.

End Sample_error_is_never_cleared.


Section Sample_update_sets_each_field.

#[local] Existing Instance Sample.runtime.


End Sample_update_sets_each_field.

(** ** How calls and requests compose *)

(** X7.  A JSON object body without a truthy counter key is idempotent:
    sending it a second time leaves the record as the first time left
    it. *)
Theorem update_without_counters_is_idempotent `{rt : Runtime} (req : request)
  (n : Z) (items : list (string * value)) (m : SnapshotMetrics) :
  path req = "/update" ->
  body_length req = Return n ->
  parse_body (rfile_read n (rfile req)) = Return (VDict items) ->
  truthy (item items "snapshots_created") = false ->
  truthy (item items "snapshots_cleaned") = false ->
  let once := metrics (snd (do_POST req (connection m))) in
  metrics (snd (do_POST req (connection once))) = once.
Proof.
  intros Hpath Hlen Hparse Hcreated Hcleaned once. subst once.
  rewrite !(do_POST_object req n items _ Hpath Hlen Hparse).
  cbn [snd metrics connection].
  unfold after_update, kept_unless_truthy, kept_unless_given, item_or.
  rewrite Hcreated, Hcleaned.
  destruct (lookup "status" items);
    destruct (truthy match lookup "operation" items with
                     | Some v => v
                     | None => VStr EmptyString
                     end);
    destruct (is_not_none (item items "progress"));
    destruct (is_not_none (item items "bytes_processed"));
    destruct (truthy (item items "error")); reflexivity.
Qed.

Section Sample_update_without_counters_is_idempotent.

#[local] Existing Instance Sample.runtime.

Lemma update_without_counters_is_idempotent_for_progress :
  let once :=
    metrics (snd (do_POST (Sample.post Sample.body_progress_42)
                    (connection Sample.at_start))) in
  metrics (snd (do_POST (Sample.post Sample.body_progress_42) (connection once)))
  = once.
Proof.
  exact (@update_without_counters_is_idempotent Sample.runtime
           (Sample.post Sample.body_progress_42) 16 [("progress", VInt 42)]
           Sample.at_start eq_refl eq_refl eq_refl eq_refl eq_refl).
Defined.

End Sample_update_without_counters_is_idempotent.

(** X8.  The methods that write different fields commute: an increment
    can be moved across any other call, and [set_error] across
    [update_status], without changing the record.  Of two [set_error]
    calls the later one decides. *)
Theorem calls_on_different_fields_commute :
  (forall (op : operation) (m : SnapshotMetrics),
      perform IncrementSnapshotsCreated (perform op m)
      = perform op (perform IncrementSnapshotsCreated m)) /\
  (forall (op : operation) (m : SnapshotMetrics),
      perform IncrementSnapshotsCleaned (perform op m)
      = perform op (perform IncrementSnapshotsCleaned m)) /\
  (forall (e : value) (s o p b : option value) (m : SnapshotMetrics),
      perform (SetError e) (perform (UpdateStatus s o p b) m)
      = perform (UpdateStatus s o p b) (perform (SetError e) m)) /\
  (forall (e e' : value) (m : SnapshotMetrics),
      perform (SetError e') (perform (SetError e) m) = perform (SetError e') m).
Proof.
  split; [| split; [| split]].
  - intros op m. destruct op as [s o p b | | | e | environ now]; try reflexivity.
    destruct s as [s |]; [| reflexivity].
    cbn [perform]. rewrite !update_status_given. reflexivity.
  - intros op m. destruct op as [s o p b | | | e | environ now]; try reflexivity.
    destruct s as [s |]; [| reflexivity].
    cbn [perform]. rewrite !update_status_given. reflexivity.
  - intros e s o p b m. destruct s as [s |]; [| reflexivity].
    cbn [perform]. rewrite !update_status_given. reflexivity.
  - intros e e' m. reflexivity.
Qed.

(** ** Paths, framing and pages *)

Section Paths.

Context {rt : Runtime}.

Lemma do_GET_elsewhere (p : process) (path : string) (s : state) :
  known_path path = false ->
  do_GET p path s
  = (Return tt, State (metrics s) (sent s ++ not_found_response)%list).
Proof.
  unfold known_path, do_GET. intros H.
  destruct (String.eqb path "/metrics"); [discriminate H |].
  destruct (String.eqb path "/health"); [discriminate H |].
  destruct (String.eqb path "/"); [discriminate H |].
  unfold send_response, end_headers, seq, emit. cbn.
  rewrite <- app_assoc. reflexivity.
Qed.

Lemma do_GET_page (p : process) (s : state) :
  do_GET p "/" s
  = match str_format status_page_template (status_page_arguments p (metrics s)) with
    | Return html =>
        (Return tt, State (metrics s) (sent s ++ page_headers ++ [Write html])%list)
    | Raise e => (Raise e, State (metrics s) (sent s ++ page_headers)%list)
    end.
Proof.
  unfold do_GET. change (String.eqb "/" "/metrics") with false.
  change (String.eqb "/" "/health") with false.
  change (String.eqb "/" "/") with true. cbn iota.
  unfold send_response, send_header, end_headers. rewrite emit_three.
  unfold seq, read, lift, wfile_write, emit. cbn [metrics sent].
  destruct (str_format _ _); [rewrite <- app_assoc |]; reflexivity.
Qed.

End Paths.

(** X9.  A GET is answered 200 for the paths [/metrics], [/health] and
    [/], compared as they are written, and 404 with no [Content-type]
    and no body for every other path; the status line goes out before
    the body is computed, so it is 200 also when the body then fails.
    No GET changes the record. *)
Theorem get_answers_200_or_404 :
  forall (rt : Runtime) (p : process) (path : string) (m : SnapshotMetrics),
    let outcome := do_GET p path (connection m) in
    status_code (sent (snd outcome))
    = Some (if known_path path then 200%Z else 404%Z) /\
    metrics (snd outcome) = m /\
    (known_path path = false -> outcome = (Return tt, State m not_found_response)) /\
    known_path "/metrics/" = false /\
    known_path "/metrics?format=text" = false /\
    known_path EmptyString = false.
Proof.
  intros rt p path m outcome. subst outcome.
  split; [| split; [apply do_GET_keeps_record | split; [| repeat split]]].
  - destruct (known_path path) eqn:Hknown.
    + unfold known_path in Hknown.
      destruct (String.eqb path "/metrics") eqn:Hmetrics.
      * apply String.eqb_eq in Hmetrics. subst path.
        rewrite do_GET_metrics. reflexivity.
      * destruct (String.eqb path "/health") eqn:Hhealth.
        -- apply String.eqb_eq in Hhealth. subst path.
           rewrite do_GET_health. reflexivity.
        -- cbn in Hknown. apply String.eqb_eq in Hknown. subst path.
           rewrite do_GET_page. destruct (str_format _ _); reflexivity.
    + rewrite (do_GET_elsewhere p path (connection m) Hknown). reflexivity.
  - intros Hknown. apply (do_GET_elsewhere p path (connection m) Hknown).
Qed.

(** X10.  A POST to any path but [/update] is answered 404 with no
    [Content-type] and no body; its [Content-Length] is not looked at,
    its body is not read and the record is not touched. *)
Theorem post_elsewhere_answers_404 `{rt : Runtime} (req : request) (s : state) :
  path req <> "/update" ->
  do_POST req s = (Return tt, State (metrics s) (sent s ++ not_found_response)%list).
Proof.
  intros Hpath. unfold do_POST.
  destruct (String.eqb (path req) "/update") eqn:H.
  - apply String.eqb_eq in H. contradiction.
  - unfold send_response, end_headers, seq, emit. cbn.
    rewrite <- app_assoc. reflexivity.
Qed.

Section Sample_post_elsewhere_answers_404.

#[local] Existing Instance Sample.runtime.

Lemma post_elsewhere_answers_404_on_metrics :
  do_POST More.post_elsewhere (connection Sample.at_start)
  = (Return tt, State Sample.at_start not_found_response).
Proof.
  apply (@post_elsewhere_answers_404 Sample.runtime More.post_elsewhere
           (connection Sample.at_start)).
  intros H. discriminate H.
Defined.

End Sample_post_elsewhere_answers_404.

(** X11.  A [Content-Length] that [int()] refuses is outside the [try]
    statement: the exception leaves [do_POST], nothing is sent, not
    even the 400 of the [except] clause, and the record is not
    touched. *)
Theorem bad_content_length_escapes `{rt : Runtime} (req : request) (e : exn)
  (s : state) :
  path req = "/update" ->
  body_length req = Raise e ->
  do_POST req s = (Raise e, s).
Proof.
  intros Hpath Hlen. unfold do_POST. rewrite Hpath.
  change (String.eqb "/update" "/update") with true. cbn iota.
  unfold seq at 1, lift at 1. rewrite Hlen. reflexivity.
Qed.

Section Sample_bad_content_length_escapes.

#[local] Existing Instance Sample.runtime.

Lemma bad_content_length_escapes_on_abc :
  do_POST More.post_bad_length (connection Sample.at_start)
  = (Raise (Exn "ValueError" "invalid literal for int() with base 10: 'abc'"),
     connection Sample.at_start).
Proof.
  apply (@bad_content_length_escapes Sample.runtime More.post_bad_length); reflexivity.
Defined.

End Sample_bad_content_length_escapes.

Lemma substring_prefix_twice (k : nat) :
  forall s : string, substring 0 k (substring 0 k s) = substring 0 k s.
Proof.
  induction k as [| k IH]; intros s.
  - destruct s; reflexivity.
  - destruct s as [| c s]; [reflexivity |].
    cbn [substring]. rewrite IH. reflexivity.
Qed.

Lemma rfile_read_twice (n : Z) (data : string) :
  rfile_read n (rfile_read n data) = rfile_read n data.
Proof.
  unfold rfile_read. destruct (n <? 0)%Z; [reflexivity |].
  apply substring_prefix_twice.
Qed.

(** X12.  Only the bytes [rfile.read] returns for the announced length
    reach the parser: the request is handled exactly as if the
    connection carried those bytes and nothing more.  Without a
    [Content-Length] header that is no byte at all, whatever the client
    sent. *)
Theorem only_the_announced_bytes_are_read `{rt : Runtime} (req : request) (n : Z)
  (s : state) :
  body_length req = Return n ->
  do_POST req s = do_POST (with_rfile (rfile_read n (rfile req)) req) s /\
  (content_length req = None ->
   do_POST req s = do_POST (with_rfile EmptyString req) s).
Proof.
  intros Hlen.
  assert (Hread : do_POST req s = do_POST (with_rfile (rfile_read n (rfile req)) req) s).
  { destruct (String.eqb (path req) "/update") eqn:Hpath.
    - apply String.eqb_eq in Hpath.
      rewrite (do_POST_update req n s Hpath Hlen).
      rewrite (do_POST_update (with_rfile (rfile_read n (rfile req)) req) n s Hpath Hlen).
      cbn [rfile with_rfile]. rewrite rfile_read_twice. reflexivity.
    - unfold do_POST. cbn [path with_rfile]. rewrite Hpath. reflexivity. }
  split; [exact Hread |].
  intros Habsent. rewrite Hread.
  unfold body_length in Hlen. rewrite Habsent in Hlen.
  injection Hlen as Hzero. subst n.
  replace (rfile_read 0 (rfile req)) with EmptyString
    by (unfold rfile_read; cbn; destruct (rfile req); reflexivity).
  reflexivity.
Qed.

Section Sample_only_the_announced_bytes_are_read.

#[local] Existing Instance Sample.runtime.

Lemma only_the_announced_bytes_are_read_without_length :
  do_POST More.post_no_length (connection Sample.at_start)
  = (Return tt,
     State Sample.at_start
       (error_response
          (Exn "JSONDecodeError" "Expecting value: line 1 column 1 (char 0)"))) /\
  progress_percent
    (metrics (snd (do_POST More.post_no_length (connection Sample.at_start))))
  = VInt 0.
Proof.
  destruct (@only_the_announced_bytes_are_read Sample.runtime More.post_no_length 0
              (connection Sample.at_start) eq_refl) as [_ Hempty].
  rewrite (Hempty eq_refl). split; reflexivity.
Defined.

End Sample_only_the_announced_bytes_are_read.


Section Sample_health_reports_what_was_posted.

#[local] Existing Instance Sample.runtime.


End Sample_health_reports_what_was_posted.

(** X14.  The status page.  The template of lines 130 to 153 holds CSS
    rules in single braces, so the first replacement field [str.format]
    finds in it is named [ font-family], and no keyword argument of
    that name is passed, for any record.  When the formatting raises,
    the 200 status line and the headers have already gone out: the
    exception leaves [do_GET], no body is written and the record is not
    touched. *)
Theorem status_page_field_is_missing :
  Format.first_field status_page_template = Format.FieldName " font-family" /\
  (forall (p : process) (m : SnapshotMetrics),
      lookup (Format.argument " font-family") (status_page_arguments p m) = None) /\
  (forall (rt : Runtime) (p : process) (s : state) (e : exn),
      str_format status_page_template (status_page_arguments p (metrics s)) = Raise e ->
      do_GET p "/" s = (Raise e, State (metrics s) (sent s ++ page_headers)%list)).
Proof.
  split; [vm_compute; reflexivity |].
  split; [intros p m; reflexivity |].
  intros rt p s e H. rewrite do_GET_page, H. reflexivity.
Qed.

(** ** [main] *)

Section MainRun.

Context {rt : Runtime}.

Lemma formatted_starting (environ : environment) (port : Z) :
  formatted environ port starting_template
  = Return ("Starting metrics server on port " ++ str_of_int port).
Proof.
  transitivity (Return ("Starting metrics server on port "
                          ++ str_of_int port ++ EmptyString));
    [reflexivity | rewrite append_empty; reflexivity].
Qed.

Lemma formatted_pod (environ : environment) (port : Z) :
  formatted environ port pod_template
  = Return ("Pod: " ++ environ_get environ "POD_NAME" "unknown").
Proof.
  transitivity (Return ("Pod: " ++ environ_get environ "POD_NAME" "unknown"
                          ++ EmptyString));
    [reflexivity | rewrite append_empty; reflexivity].
Qed.

Lemma formatted_network (environ : environment) (port : Z) :
  formatted environ port network_template
  = Return ("Network: " ++ environ_get environ "ETHEREUM_NETWORK" "unknown").
Proof.
  transitivity (Return ("Network: "
                          ++ environ_get environ "ETHEREUM_NETWORK" "unknown"
                          ++ EmptyString));
    [reflexivity | rewrite append_empty; reflexivity].
Qed.

Lemma formatted_started (environ : environment) (port : Z) :
  formatted environ port started_template
  = Return ("Metrics server started at http://0.0.0.0:" ++ str_of_int port).
Proof.
  transitivity (Return ("Metrics server started at http://0.0.0.0:"
                          ++ str_of_int port ++ EmptyString));
    [reflexivity | rewrite append_empty; reflexivity].
Qed.

End MainRun.

(** X15.  [main] reads the port from [METRICS_PORT], 8080 when the
    variable is not set; a value [int()] refuses ends [main] with that
    exception before a line is printed.  Otherwise it prints the port
    and the pod and network names (with [unknown] for a missing
    variable) and asks for the port: when the bind raises, [main] ends
    with that exception after these three lines and serves nothing.
    When the port is bound it prints the address and the endpoints,
    and after the interrupt it leaves the record the served requests
    produced with the status [stopped] and the operation [shutdown]. *)
Theorem main_announces_and_stops :
  forall (rt : Runtime) (environ : environment) (listen : Z -> result unit)
         (requests : list (process * incoming)) (m : SnapshotMetrics),
    main environ listen requests m
    = match metrics_port environ with
      | Raise e => ([], Raise e)
      | Return port =>
          let banner :=
            [ "Starting metrics server on port " ++ str_of_int port;
              "Pod: " ++ environ_get environ "POD_NAME" "unknown";
              "Network: " ++ environ_get environ "ETHEREUM_NETWORK" "unknown" ] in
          match listen port with
          | Raise e => (banner, Raise e)
          | Return _ =>
              let served := serve_forever requests m in
              (List.app banner
                 [ "Metrics server started at http://0.0.0.0:" ++ str_of_int port;
                   "Endpoints:";
                   "  /metrics - Prometheus metrics";
                   "  /health  - Health check";
                   "  /        - Status page";
                   "  POST /update - Update metrics";
                   nl ++ "Shutting down metrics server..." ],
               Return {|
                 start_time := start_time served;
                 status := VStr "stopped";
                 current_operation := VStr "shutdown";
                 progress_percent := progress_percent served;
                 bytes_processed := bytes_processed served;
                 snapshots_created := snapshots_created served;
                 snapshots_cleaned := snapshots_cleaned served;
                 last_error := last_error served
               |})
          end
      end /\
    (environ_lookup environ "METRICS_PORT" = None ->
     metrics_port environ = Return 8080%Z).
Proof.
  intros rt environ listen requests m. split.
  - unfold main, and_then, quietly.
    destruct (metrics_port environ) as [port | e]; [| reflexivity].
    rewrite formatted_starting, formatted_pod, formatted_network, formatted_started.
    cbn [print app].
    destruct (listen port) as [[] | e]; reflexivity.
  - intros H. unfold metrics_port. rewrite H. reflexivity.
Qed.

Section Sample_main.

#[local] Existing Instance Sample.runtime.

(** With [METRICS_PORT=65536] the three lines are printed, the bind
    raises and no request is served. *)
Example main_on_a_port_out_of_range :
  main [("METRICS_PORT", "65536")] More.listen
    [(Sample.at_noon, POST (Sample.post Sample.body_progress_42))] Sample.at_start
  = ([ "Starting metrics server on port 65536";
       "Pod: unknown";
       "Network: unknown" ],
     Raise (Exn "OverflowError" "bind(): port must be 0-65535.")).
Proof. vm_compute. reflexivity. Qed.

Example main_on_the_default_port :
  fst (main [] More.listen [] Sample.at_start)
  = [ "Starting metrics server on port 8080";
      "Pod: unknown";
      "Network: unknown";
      "Metrics server started at http://0.0.0.0:8080";
      "Endpoints:";
      "  /metrics - Prometheus metrics";
      "  /health  - Health check";
      "  /        - Status page";
      "  POST /update - Update metrics";
      nl ++ "Shutting down metrics server..." ].
Proof. vm_compute. reflexivity. Qed.

End Sample_main.
